(** * FogROS2 cloud-instance provisioning (fogros2/aws.py)

    A shallow embedding of the classes [CloudInstance], [RemoteMachine] and
    [AWS] of [fogros2/aws.py], and the properties of the provisioning
    pipeline proved about it.

    The Python methods mutate [self] and talk to collaborators (boto3, the
    SCP client, the local file system, the random source).  They are
    embedded as computations in a state-and-exception monad: the state holds
    the object's fields, the sequence of actions performed so far and the
    local files written; every call to a collaborator asks a [World] whether
    it raises and what it returns. *)

From Stdlib Require Import ZArith Lia DecimalString.
From stdpp Require Import base option list strings gmap.

Open Scope Z_scope.
Open Scope string_scope.
Open Scope list_scope.

(** ** Python values used by the module *)

(** Exceptions.  [Foreign] stands for an exception raised by a collaborator
    (botocore's ClientError, the SCP client's errors, OSError, ...), given by
    its class name and message. *)
Inductive exn : Type :=
  | NameError (name : string)
  | UnboundLocalError (name : string)
  | NotImplementedError (msg : string)
  | AttributeError (attr : string)
  | TypeError (msg : string)
  | IndexError
  | RuntimeError (msg : string)
  | Foreign (cls msg : string).

Definition class_name (e : exn) : string :=
  match e with
  | NameError _ => "NameError"
  | UnboundLocalError _ => "UnboundLocalError"
  | NotImplementedError _ => "NotImplementedError"
  | AttributeError _ => "AttributeError"
  | TypeError _ => "TypeError"
  | IndexError => "IndexError"
  | RuntimeError _ => "RuntimeError"
  | Foreign cls _ => cls
  end.

(** What a module-level name is bound to. *)
Inductive pyobj : Type :=
  | PyModule (name : string)
  | PyFunction (name : string)
  | PyClass (name : string).

(** The names bound at module level by [aws.py]: its imports and its three
    classes, in the order of the file. *)
Definition module_globals : list (string * pyobj) :=
  [ ("boto3", PyModule "boto3");
    ("random", PyModule "random");
    ("logging", PyModule "logging");
    ("threading", PyModule "threading");
    ("make_zip_file", PyFunction "make_zip_file");
    ("BashBuilder", PyClass "BashBuilder");
    ("CycloneConfigBuilder", PyClass "CycloneConfigBuilder");
    ("SCP_Client", PyClass "SCP_Client");
    ("os", PyModule "os");
    ("json", PyModule "json");
    ("CloudInstance", PyClass "CloudInstance");
    ("RemoteMachine", PyClass "RemoteMachine");
    ("AWS", PyClass "AWS") ].

Fixpoint assoc {A : Type} (k : string) (l : list (string * A)) : option A :=
  match l with
  | [] => None
  | (k', v) :: l' => if String.eqb k k' then Some v else assoc k l'
  end.

(** JSON values that [info] puts in its dictionary. *)
Inductive jval : Type :=
  | JNull
  | JStr (s : string)
  | JInt (n : Z).

(** A Python dict keeps insertion order, which [json.dump] follows. *)
Definition dict : Type := list (string * jval).

(** [d[k] = v] *)
Fixpoint dict_set (k : string) (v : jval) (d : dict) : dict :=
  match d with
  | [] => [(k, v)]
  | (k', v') :: d' =>
      if String.eqb k k' then (k, v) :: d' else (k', v') :: dict_set k v d'
  end.

Definition keys (d : dict) : list string := map fst d.

Definition jopt (o : option string) : jval :=
  match o with
  | None => JNull
  | Some s => JStr s
  end.

(** [str(n)] for an int. *)
Definition str (n : Z) : string := NilZero.string_of_int (Z.to_int n).

(** Truth value of an optional string: [None] and the empty string are
    false. *)
Definition truthy (o : option string) : bool :=
  match o with
  | None => false
  | Some s => negb (String.eqb s "")
  end.

(** [str(l)] for a list of strings without quotes or escapes. *)
Definition str_list (l : list string) : string :=
  "[" +:+ String.concat ", " (map (fun s => "'" +:+ s +:+ "'") l) +:+ "]".

(** ** Objects *)

(** The SCP client built by [connect]. *)
Record SCP_Client : Type := mkSCP {
  scp_ip : option string;
  scp_key : option string
}.

(** The boto3 instance handle: its id and the attributes cached by the last
    [reload], with the number of reloads it has gone through. *)
Record Instance : Type := mkInstance {
  instance_id : string;
  reloads : nat;
  public_ip_address : option string
}.

Record CloudInstance : Type := mkCloudInstance {
  cyclone_builder : option (list string);
  scp : option SCP_Client;
  public_ip : option string;
  ros_workspace : string;
  ssh_key_path : option string;
  unique_name : string;
  working_dir : string;
  ready_lock : bool;     (* true while the lock is held *)
  ready_state : bool
}.

Record RemoteMachine : Type := mkRemoteMachine {
  rm_base : CloudInstance;
  ip : pyobj
}.

Record AWS : Type := mkAWS {
  base : CloudInstance;
  region : string;
  ec2_instance_type : string;
  ec2_instance_disk_size : Z;
  aws_ami_image : string;
  ec2_security_group : string;
  ec2_key_name : string;
  ec2_instance : option Instance;
  ssh_key : option string;
  ec2_security_group_ids : option (list string)
}.

(** ** Actions and the world *)

Inductive file : Type :=
  | FText (s : string)
  | FJson (d : dict).

(** The actions a run performs, in the order of the trace. *)
Inductive action : Type :=
  | Randint (lo hi : Z)
  | Makedirs (path : string)
  | Boto3Resource (service rgn : string)
  | Boto3Client (service rgn : string)
  | Print (msg : string)
  | LogError (e : exn)
  | LogWarn (msg : string)
  | DescribeVpcs
  | CreateSecurityGroup (name description vpc : string)
  | AuthorizeIngress (group : string)
  | CreateKeyPair (name : string)
  | WriteFile (path : string) (content : file)
  | CreateInstances (image type key : string)
      (groups : option (list string)) (disk : Z)
  | WaitUntilRunning
  | Reload
  | ScpConnect (addr key : option string)
  | ExecuteCmd (cmd : string)
  | SendFile (src dst : string)
  | MakeZip (src dst : string)
  | GenerateConfigFile (peers : list string)
  | SetReady (b : bool).

(** What the collaborators answer.  The code of boto3, of the SCP client
    ([scp.py]), of [make_zip_file], [BashBuilder] and [CycloneConfigBuilder]
    is not part of [aws.py]: what their calls return and whether they raise
    is a parameter of the model.  [w_fails t a] is the exception, if any,
    that action [a] raises when it is the [t]-th action of the run;
    [w_random t] decides the draw of [random.randint] made then;
    [w_public_ip_address r] is the address the instance reports after its
    [r]-th reload; [w_env_cmd] and [w_bash_get] are
    [CycloneConfigBuilder.env_cmd] and [BashBuilder.get]. *)
Record World : Type := mkWorld {
  w_fails : nat -> action -> option exn;
  w_random : nat -> Z;
  w_vpcs : option (list (option string));
  w_group_id : string;
  w_key_material : string;
  w_instance_id : string;
  w_public_ip_address : nat -> option string;
  w_env_cmd : string;
  w_bash_get : list string -> string
}.

(** The system around the object: the trace of actions and the local files. *)
Record Sys : Type := mkSys {
  trace : list action;
  fs : gmap string file
}.

Record St (T : Type) : Type := mkSt {
  self : T;
  sys : Sys
}.
Arguments mkSt {T} _ _.
Arguments self {T} _.
Arguments sys {T} _.

(** ** The monad *)

(** A computation returns, raises, or hangs (a loop that does not end within
    the fuel, or a lock that is never released); each with the state
    reached. *)
Inductive outcome (T A : Type) : Type :=
  | Ok (a : A) (s : St T)
  | Raise (e : exn) (s : St T)
  | Hang (s : St T).
Arguments Ok {T A} _ _.
Arguments Raise {T A} _ _.
Arguments Hang {T A} _.

Definition M (T A : Type) : Type := St T -> outcome T A.

Definition ret {T A} (a : A) : M T A := fun s => Ok a s.

Definition bind {T A B} (m : M T A) (k : A -> M T B) : M T B :=
  fun s =>
    match m s with
    | Ok a s' => k a s'
    | Raise e s' => Raise e s'
    | Hang s' => Hang s'
    end.

Notation "x <- m ;; k" := (bind m (fun x => k))
  (at level 100, m at next level, right associativity).
Notation "m ;; k" := (bind m (fun _ => k))
  (at level 100, right associativity).

Definition raise {T A} (e : exn) : M T A := fun s => Raise e s.
Definition hang {T A} : M T A := fun s => Hang s.

Definition get_self {T} : M T T := fun s => Ok (self s) s.
Definition modify {T} (f : T -> T) : M T unit :=
  fun s => Ok tt (mkSt (f (self s)) (sys s)).

Definition final {T A} (o : outcome T A) : St T :=
  match o with
  | Ok _ s => s
  | Raise _ s => s
  | Hang s => s
  end.

Definition log {T} (a : action) (s : St T) : St T :=
  mkSt (self s) (mkSys (trace (sys s) ++ [a]) (fs (sys s))).

(** An action that cannot fail (printing, logging, a gate write). *)
Definition emit {T} (a : action) : M T unit := fun s => Ok tt (log a s).

(** Run a method of the base class on a subclass object. *)
Definition lift {T U A} (get : U -> T) (set : T -> U -> U) (m : M T A) : M U A :=
  fun s =>
    let back (s' : St T) := mkSt (set (self s') (self s)) (sys s') in
    match m (mkSt (get (self s)) (sys s)) with
    | Ok a s' => Ok a (back s')
    | Raise e s' => Raise e (back s')
    | Hang s' => Hang (back s')
    end.

(** Run a computation on a freshly built object from a constructor: a raise
    leaves no object behind. *)
Definition construct {T A} (x : T) (m : M T A) : M unit T :=
  fun s =>
    match m (mkSt x (sys s)) with
    | Ok _ s' => Ok (self s') (mkSt tt (sys s'))
    | Raise e s' => Raise e (mkSt tt (sys s'))
    | Hang s' => Hang (mkSt tt (sys s'))
    end.

(** A free name of the module is looked up in its globals when the line is
    executed. *)
Definition load_global {T} (name : string) : M T pyobj :=
  match assoc name module_globals with
  | Some v => ret v
  | None => raise (NameError name)
  end.

Section Program.

Variable W : World.

(** A call to a collaborator: recorded, and raising if the world says so. *)
Definition ext {T} (a : action) : M T unit :=
  fun s =>
    match w_fails W (length (trace (sys s))) a with
    | Some e => Raise e (log a s)
    | None => Ok tt (log a s)
    end.

(** [random.randint(10, 1000)] *)
Definition randint {T} (lo hi : Z) : M T Z :=
  fun s =>
    Ok (lo + w_random W (length (trace (sys s))) mod (hi - lo + 1))
       (log (Randint lo hi) s).

(** [with open(path, "w+") as f: ...write...] *)
Definition stored {T} (path : string) (c : file) (s : St T) : St T :=
  mkSt (self s) (mkSys (trace (sys s)) (<[path := c]> (fs (sys s)))).

Definition write_file {T} (path : string) (c : file) : M T unit :=
  ext (WriteFile path c) ;;
  fun s => Ok tt (stored path c s).

(** [try: m except cls as e: h e] is written with [try_except]; the handler
    decides itself whether the exception matches. *)
Definition try_except {T A} (m : M T A) (h : exn -> M T A) : M T A :=
  fun s =>
    match m s with
    | Raise e s' => h e s'
    | o => o
    end.

(** ** Field updates *)

Definition with_cyclone_builder (v : option (list string)) (c : CloudInstance) :=
  mkCloudInstance v (scp c) (public_ip c) (ros_workspace c) (ssh_key_path c)
    (unique_name c) (working_dir c) (ready_lock c) (ready_state c).
Definition with_scp (v : option SCP_Client) (c : CloudInstance) :=
  mkCloudInstance (cyclone_builder c) v (public_ip c) (ros_workspace c)
    (ssh_key_path c) (unique_name c) (working_dir c) (ready_lock c) (ready_state c).
Definition with_public_ip (v : option string) (c : CloudInstance) :=
  mkCloudInstance (cyclone_builder c) (scp c) v (ros_workspace c)
    (ssh_key_path c) (unique_name c) (working_dir c) (ready_lock c) (ready_state c).
Definition with_ssh_key_path (v : option string) (c : CloudInstance) :=
  mkCloudInstance (cyclone_builder c) (scp c) (public_ip c) (ros_workspace c)
    v (unique_name c) (working_dir c) (ready_lock c) (ready_state c).
Definition with_unique_name (v : string) (c : CloudInstance) :=
  mkCloudInstance (cyclone_builder c) (scp c) (public_ip c) (ros_workspace c)
    (ssh_key_path c) v (working_dir c) (ready_lock c) (ready_state c).
Definition with_ready_lock (v : bool) (c : CloudInstance) :=
  mkCloudInstance (cyclone_builder c) (scp c) (public_ip c) (ros_workspace c)
    (ssh_key_path c) (unique_name c) (working_dir c) v (ready_state c).
Definition with_ready_state (v : bool) (c : CloudInstance) :=
  mkCloudInstance (cyclone_builder c) (scp c) (public_ip c) (ros_workspace c)
    (ssh_key_path c) (unique_name c) (working_dir c) (ready_lock c) v.

Definition with_base (v : CloudInstance) (a : AWS) :=
  mkAWS v (region a) (ec2_instance_type a) (ec2_instance_disk_size a)
    (aws_ami_image a) (ec2_security_group a) (ec2_key_name a) (ec2_instance a)
    (ssh_key a) (ec2_security_group_ids a).
Definition with_ec2_instance (v : option Instance) (a : AWS) :=
  mkAWS (base a) (region a) (ec2_instance_type a) (ec2_instance_disk_size a)
    (aws_ami_image a) (ec2_security_group a) (ec2_key_name a) v
    (ssh_key a) (ec2_security_group_ids a).
Definition with_ssh_key (v : option string) (a : AWS) :=
  mkAWS (base a) (region a) (ec2_instance_type a) (ec2_instance_disk_size a)
    (aws_ami_image a) (ec2_security_group a) (ec2_key_name a) (ec2_instance a)
    v (ec2_security_group_ids a).
Definition with_ec2_security_group_ids (v : option (list string)) (a : AWS) :=
  mkAWS (base a) (region a) (ec2_instance_type a) (ec2_instance_disk_size a)
    (aws_ami_image a) (ec2_security_group a) (ec2_key_name a) (ec2_instance a)
    (ssh_key a) v.

Definition with_rm_base (v : CloudInstance) (r : RemoteMachine) :=
  mkRemoteMachine v (ip r).

(** Base-class methods run on an [AWS] or a [RemoteMachine]. *)
Definition on_base {A} (m : M CloudInstance A) : M AWS A := lift base with_base m.
Definition on_rm_base {A} (m : M CloudInstance A) : M RemoteMachine A :=
  lift rm_base with_rm_base m.

(** ** class CloudInstance *)

Definition default_ros_workspace : string := "/home/root/fog_ws".
Definition default_working_dir_base : string := "/tmp/fogros/".

Definition CloudInstance_init (ros_workspace working_dir_base : string)
  : M unit CloudInstance :=
  n <- randint 10 1000 ;;
  let unique_name := str n in
  let working_dir := working_dir_base +:+ "/" +:+ unique_name +:+ "/" in
  ext (Makedirs working_dir) ;;
  ret (mkCloudInstance None None None ros_workspace None unique_name
         working_dir false false).

Definition CloudInstance_create : M CloudInstance unit :=
  raise (NotImplementedError "Cloud SuperClass not implemented").

Definition info_dict (c : CloudInstance) : dict :=
  [ ("name", JStr (unique_name c));
    ("ros_workspace", JStr (ros_workspace c));
    ("working_dir", JStr (working_dir c));
    ("ssh_key_path", jopt (ssh_key_path c));
    ("public_ip", jopt (public_ip c)) ].

Definition info (flush_to_disk : bool) : M CloudInstance dict :=
  c <- get_self ;;
  let d := info_dict c in
  (if flush_to_disk then write_file (working_dir c +:+ "info") (FJson d)
   else ret tt) ;;
  ret d.

Definition connect : M CloudInstance unit :=
  c <- get_self ;;
  modify (with_scp (Some (mkSCP (public_ip c) (ssh_key_path c)))) ;;
  ext (ScpConnect (public_ip c) (ssh_key_path c)).

Definition get_ssh_key_path : M CloudInstance (option string) :=
  c <- get_self ;; ret (ssh_key_path c).

Definition get_ip : M CloudInstance (option string) :=
  c <- get_self ;; ret (public_ip c).

Definition get_name : M CloudInstance string :=
  c <- get_self ;; ret (unique_name c).

(** [self.ready_lock.acquire()]: blocks while the lock is held. *)
Definition acquire : M CloudInstance unit :=
  c <- get_self ;;
  if ready_lock c then hang else modify (with_ready_lock true).

(** [self.ready_lock.release()] *)
Definition release : M CloudInstance unit :=
  c <- get_self ;;
  if ready_lock c then modify (with_ready_lock false)
  else raise (RuntimeError "release unlocked lock").

Definition get_ready_state : M CloudInstance bool :=
  acquire ;;
  c <- get_self ;;
  let ready := ready_state c in
  release ;;
  ret ready.

Definition set_ready_state (ready : bool) : M CloudInstance bool :=
  acquire ;;
  modify (with_ready_state ready) ;;
  emit (SetReady ready) ;;
  release ;;
  ret ready.

(** [self.scp.execute_cmd(cmd)] and [self.scp.send_file(src, dst)]: [self.scp]
    is [None] until [connect]. *)
Definition execute_cmd (cmd : string) : M CloudInstance unit :=
  c <- get_self ;;
  match scp c with
  | None => raise (AttributeError "execute_cmd")
  | Some _ => ext (ExecuteCmd cmd)
  end.

Definition send_file (src dst : string) : M CloudInstance unit :=
  c <- get_self ;;
  match scp c with
  | None => raise (AttributeError "send_file")
  | Some _ => ext (SendFile src dst)
  end.

Definition install_cloud_dependencies : M CloudInstance unit :=
  execute_cmd "sudo apt install -y wireguard unzip" ;;
  execute_cmd "sudo pip3 install wgconfig boto3 paramiko scp".

Definition push_ros_workspace : M CloudInstance unit :=
  c <- get_self ;;
  let workspace_path := ros_workspace c in
  let zip_dst := "/tmp/ros_workspace" in
  ext (MakeZip workspace_path zip_dst) ;;
  execute_cmd "echo removing old workspace" ;;
  execute_cmd "rm -rf ros_workspace.zip ros2_ws fog_ws" ;;
  send_file (zip_dst +:+ ".zip") "/home/ubuntu/" ;;
  execute_cmd "unzip -q /home/ubuntu/ros_workspace.zip" ;;
  execute_cmd "echo successfully extracted new workspace".

Definition push_to_cloud_nodes : M CloudInstance unit :=
  c <- get_self ;;
  send_file ("/tmp/to_cloud_" +:+ unique_name c) "/tmp/to_cloud_nodes".

Definition push_and_setup_vpn : M CloudInstance unit :=
  c <- get_self ;;
  send_file ("/tmp/fogros-cloud.conf" +:+ unique_name c) "/tmp/fogros-aws.conf" ;;
  execute_cmd
    "sudo cp /tmp/fogros-aws.conf /etc/wireguard/wg0.conf && sudo chmod 600 /etc/wireguard/wg0.conf && sudo wg-quick up wg0".

Definition configure_DDS : M CloudInstance unit :=
  modify (with_cyclone_builder (Some ["10.0.0.1"])) ;;
  ext (GenerateConfigFile ["10.0.0.1"]) ;;
  send_file "/tmp/cyclonedds.xml" "~/cyclonedds.xml".

Definition launch_cloud_node : M CloudInstance unit :=
  c <- get_self ;;
  match cyclone_builder c with
  | None => raise (AttributeError "env_cmd")
  | Some _ =>
      let cmds :=
        [ "source /home/ubuntu/ros2_rolling/install/setup.bash";
          "cd /home/ubuntu/fog_ws && colcon build --merge-install";
          ". /home/ubuntu/fog_ws/install/setup.bash";
          w_env_cmd W;
          "ros2 launch fogros2 cloud.launch.py" ] in
      emit (Print (w_bash_get W cmds)) ;;
      execute_cmd (w_bash_get W cmds)
  end.

(** ** class RemoteMachine *)

Definition RemoteMachine_init (ip ssh_key_path : string) : M unit RemoteMachine :=
  c <- CloudInstance_init default_ros_workspace default_working_dir_base ;;
  v <- load_global "public_ip" ;;
  let c := with_ssh_key_path (Some ssh_key_path) c in
  n <- randint 10 1000 ;;
  let c := with_unique_name ("REMOTE" +:+ str n) c in
  construct (mkRemoteMachine c v) (on_rm_base (set_ready_state true)).

Definition RemoteMachine_create : M RemoteMachine unit := ret tt.

(** ** class AWS *)

(** [__init__] sets the logger to WARNING: its [info] calls emit nothing and
    are left out; [warn] and [error] calls and [print] are recorded. *)

Definition create_security_group : M AWS unit :=
  ext DescribeVpcs ;;
  vpc_id <- match w_vpcs W with
            | None => ret ""
            | Some [] => raise IndexError
            | Some (v :: _) => ret (default "" v)
            end ;;
  a <- get_self ;;
  ec2_security_group_ids <-
    try_except
      (ext (CreateSecurityGroup (ec2_security_group a) "DESCRIPTION" vpc_id) ;;
       let security_group_id := w_group_id W in
       ext (AuthorizeIngress security_group_id) ;;
       ret (Some [security_group_id]))
      (fun e =>
         cls <- load_global "ClientError" ;;
         match cls with
         | PyClass c =>
             if String.eqb (class_name e) c
             then emit (LogError e) ;; ret None
             else raise e
         | _ => raise (TypeError "catching classes that do not inherit from BaseException is not allowed")
         end) ;;
  match ec2_security_group_ids with
  | None => raise (UnboundLocalError "ec2_security_group_ids")
  | Some ids =>
      emit (LogWarn ("security group id is " +:+ str_list ids)) ;;
      modify (with_ec2_security_group_ids (Some ids))
  end.

Definition generate_key_pair : M AWS string :=
  a <- get_self ;;
  ext (CreateKeyPair (ec2_key_name a)) ;;
  let ec2_priv_key := w_key_material W in
  match ssh_key_path (base a) with
  | None => raise (TypeError "expected str, bytes or os.PathLike object, not NoneType")
  | Some path => write_file path (FText ec2_priv_key)
  end ;;
  modify (with_ssh_key (Some ec2_priv_key)) ;;
  ret ec2_priv_key.

(** [instance.reload()] refreshes the cached attributes. *)
Definition reloaded (i : Instance) : Instance :=
  mkInstance (instance_id i) (S (reloads i))
    (w_public_ip_address W (S (reloads i))).

(** The loop [while not self.public_ip: ...] of [create_ec2_instance];
    [instance] is the object that [self.ec2_instance] also names. *)
Fixpoint poll_public_ip (fuel : nat) (instance : Instance) : M AWS Instance :=
  fun s =>
    if truthy (public_ip (base (self s))) then Ok instance s
    else
      match fuel with
      | O => Hang s
      | S fuel' =>
          (ext Reload ;;
           let instance' := reloaded instance in
           modify (with_ec2_instance (Some instance')) ;;
           modify (fun a => with_base (with_public_ip (public_ip_address instance') (base a)) a) ;;
           poll_public_ip fuel' instance') s
      end.

Definition create_ec2_instance (fuel : nat) : M AWS Instance :=
  a <- get_self ;;
  ext (CreateInstances (aws_ami_image a) (ec2_instance_type a) (ec2_key_name a)
         (ec2_security_group_ids a) (ec2_instance_disk_size a)) ;;
  let instance := mkInstance (w_instance_id W) 0 (w_public_ip_address W 0) in
  ext WaitUntilRunning ;;
  ext Reload ;;
  let instance := reloaded instance in
  modify (with_ec2_instance (Some instance)) ;;
  emit (Print (instance_id instance)) ;;
  modify (fun a => with_base (with_public_ip (public_ip_address instance) (base a)) a) ;;
  instance <- poll_public_ip fuel instance ;;
  a <- get_self ;;
  match public_ip (base a) with
  | None => raise (TypeError "can only concatenate str (not NoneType) to str")
  | Some addr =>
      emit (LogWarn ("EC2 instance is created with ip address: " +:+ addr))
  end ;;
  ret instance.

Definition AWS_info (flush_to_disk : bool) : M AWS dict :=
  info_dict <- on_base (info flush_to_disk) ;;
  a <- get_self ;;
  let info_dict := dict_set "ec2_region" (JStr (region a)) info_dict in
  let info_dict := dict_set "ec2_instance_type" (JStr (ec2_instance_type a)) info_dict in
  let info_dict := dict_set "disk_size" (JInt (ec2_instance_disk_size a)) info_dict in
  let info_dict := dict_set "aws_ami_image" (JStr (aws_ami_image a)) info_dict in
  match ec2_instance a with
  | None => raise (AttributeError "instance_id")
  | Some i =>
      let info_dict := dict_set "ec2_instance_id" (JStr (instance_id i)) info_dict in
      (if flush_to_disk
       then write_file (working_dir (base a) +:+ "info") (FJson info_dict)
       else ret tt) ;;
      ret info_dict
  end.

Definition get_ssh_key : M AWS (option string) :=
  a <- get_self ;; ret (ssh_key a).

Definition AWS_create (fuel : nat) : M AWS unit :=
  emit (Print "creating EC2 instance") ;;
  create_security_group ;;
  generate_key_pair ;;
  create_ec2_instance fuel ;;
  on_base connect ;;
  on_base install_cloud_dependencies ;;
  on_base push_ros_workspace ;;
  AWS_info true ;;
  on_base (set_ready_state true) ;;
  ret tt.

Definition default_region : string := "us-west-1".
Definition default_ec2_instance_type : string := "t2.micro".
Definition default_disk_size : Z := 30.
Definition default_ami_image : string := "ami-08b3b42af12192fe6".

(** The part of [AWS.__init__] before its last line. *)
Definition AWS_fields (region ec2_instance_type : string) (disk_size : Z)
    (ami_image ros_workspace working_dir_base : string) : M unit AWS :=
  c <- CloudInstance_init ros_workspace working_dir_base ;;
  n <- randint 10 1000 ;;
  let unique_name := "AWS" +:+ str n in
  let c := with_unique_name unique_name c in
  let ec2_security_group := "FOGROS_SECURITY_GROUP" +:+ unique_name in
  let ec2_key_name := "FogROSKEY" +:+ unique_name in
  let c := with_ssh_key_path (Some (working_dir c +:+ ec2_key_name +:+ ".pem")) c in
  ext (Boto3Resource "ec2" region) ;;
  ext (Boto3Client "ec2" region) ;;
  ret (mkAWS c region ec2_instance_type disk_size ami_image
         ec2_security_group ec2_key_name None None None).

Definition AWS_init (fuel : nat) (region ec2_instance_type : string)
    (disk_size : Z) (ami_image ros_workspace working_dir_base : string)
  : M unit AWS :=
  a <- AWS_fields region ec2_instance_type disk_size ami_image
         ros_workspace working_dir_base ;;
  construct a (AWS_create fuel).

End Program.

(** * Vocabulary of the statements *)

(** ** Decidable equality of actions *)

#[global] Instance exn_eq_dec : EqDecision exn.
Proof. solve_decision. Defined.
#[global] Instance jval_eq_dec : EqDecision jval.
Proof. solve_decision. Defined.
#[global] Instance file_eq_dec : EqDecision file.
Proof. solve_decision. Defined.
#[global] Instance action_eq_dec : EqDecision action.
Proof. solve_decision. Defined.

(** ** Observations on traces and outcomes *)

(** Whether an action is a write of the readiness gate, or a write of the
    file [path]. *)
Definition is_gate_write (a : action) : bool :=
  match a with
  | SetReady _ => true
  | _ => false
  end.

Definition is_write_to (path : string) (a : action) : bool :=
  match a with
  | WriteFile p _ => String.eqb p path
  | _ => false
  end.

Definition is_reload (a : action) : bool :=
  match a with
  | Reload => true
  | _ => false
  end.

(** The outcome seen by the caller. *)
Definition raised {T A} (o : outcome T A) : option exn :=
  match o with
  | Raise e _ => Some e
  | _ => None
  end.

Definition returned {T A} (o : outcome T A) : option A :=
  match o with
  | Ok a _ => Some a
  | _ => None
  end.

(** The actions added to the trace [old] to reach [new]. *)
Definition added (old new : list action) : list action :=
  drop (length old) new.

(** ** Invariants of the operations *)

(** [n] calls of [get_ready_state] in a row, with the values they return. *)
Fixpoint get_ready_state_times (n : nat) : M CloudInstance (list bool) :=
  match n with
  | O => ret []
  | S n' =>
      b <- get_ready_state ;;
      bs <- get_ready_state_times n' ;;
      ret (b :: bs)
  end.

(** [preserves R m]: whatever the outcome of [m], the state it reaches is
    related by [R] to the state it started from. *)
Definition preserves {T A} (R : St T -> St T -> Prop) (m : M T A) : Prop :=
  forall s, R s (final (m s)).

(** The fields that identify a record. *)
Definition same_identity (c c' : CloudInstance) : Prop :=
  unique_name c' = unique_name c /\ working_dir c' = working_dir c
  /\ ros_workspace c' = ros_workspace c /\ ssh_key_path c' = ssh_key_path c.

Definition same_config (a a' : AWS) : Prop :=
  region a' = region a /\ ec2_instance_type a' = ec2_instance_type a
  /\ ec2_instance_disk_size a' = ec2_instance_disk_size a
  /\ aws_ami_image a' = aws_ami_image a
  /\ ec2_security_group a' = ec2_security_group a
  /\ ec2_key_name a' = ec2_key_name a.

Definition no_gate_write (l : list action) : bool :=
  forallb (fun a => negb (is_gate_write a)) l.

(** A step is quiet when it keeps the identity, does not touch the gate or
    its lock, and only adds actions other than gate writes to the trace. *)
Definition quiet (s s' : St CloudInstance) : Prop :=
  same_identity (self s) (self s')
  /\ ready_state (self s') = ready_state (self s)
  /\ ready_lock (self s') = ready_lock (self s)
  /\ exists l, trace (sys s') = trace (sys s) ++ l /\ no_gate_write l = true.

Definition view (s : St AWS) : St CloudInstance := mkSt (base (self s)) (sys s).

Definition quietA (s s' : St AWS) : Prop :=
  quiet (view s) (view s') /\ same_config (self s) (self s').

(** ** The actions of each step *)

(** The VPC that [create_security_group] picks. *)
Definition vpc_id (W : World) : string :=
  match w_vpcs W with
  | Some (v :: _) => default "" v
  | _ => ""
  end.

Definition security_group_actions (W : World) (a : AWS) : list action :=
  [ DescribeVpcs;
    CreateSecurityGroup (ec2_security_group a) "DESCRIPTION" (vpc_id W);
    AuthorizeIngress (w_group_id W);
    LogWarn ("security group id is " +:+ str_list [w_group_id W]) ].

Definition key_pair_actions (W : World) (a : AWS) : list action :=
  [ CreateKeyPair (ec2_key_name a);
    WriteFile (default "" (ssh_key_path (base a))) (FText (w_key_material W)) ].

(** [polls] is the number of times the address is read, each after a
    reload. *)
Definition instance_actions (W : World) (a : AWS) (polls : nat) : list action :=
  [ CreateInstances (aws_ami_image a) (ec2_instance_type a) (ec2_key_name a)
      (ec2_security_group_ids a) (ec2_instance_disk_size a);
    WaitUntilRunning; Reload; Print (w_instance_id W) ]
  ++ repeat Reload (polls - 1)
  ++ [ LogWarn ("EC2 instance is created with ip address: "
                +:+ default "" (w_public_ip_address W polls)) ].

Definition session_actions (c : CloudInstance) : list action :=
  [ ScpConnect (public_ip c) (ssh_key_path c) ].

Definition dependency_actions : list action :=
  [ ExecuteCmd "sudo apt install -y wireguard unzip";
    ExecuteCmd "sudo pip3 install wgconfig boto3 paramiko scp" ].

Definition sync_actions (c : CloudInstance) : list action :=
  [ MakeZip (ros_workspace c) "/tmp/ros_workspace";
    ExecuteCmd "echo removing old workspace";
    ExecuteCmd "rm -rf ros_workspace.zip ros2_ws fog_ws";
    SendFile "/tmp/ros_workspace.zip" "/home/ubuntu/";
    ExecuteCmd "unzip -q /home/ubuntu/ros_workspace.zip";
    ExecuteCmd "echo successfully extracted new workspace" ].

Definition overlay_actions (c : CloudInstance) : list action :=
  [ SendFile ("/tmp/fogros-cloud.conf" +:+ unique_name c) "/tmp/fogros-aws.conf";
    ExecuteCmd
      "sudo cp /tmp/fogros-aws.conf /etc/wireguard/wg0.conf && sudo chmod 600 /etc/wireguard/wg0.conf && sudo wg-quick up wg0" ].

Definition middleware_actions : list action :=
  [ GenerateConfigFile ["10.0.0.1"];
    SendFile "/tmp/cyclonedds.xml" "~/cyclonedds.xml" ].

Definition launch_command (W : World) : string :=
  w_bash_get W
    [ "source /home/ubuntu/ros2_rolling/install/setup.bash";
      "cd /home/ubuntu/fog_ws && colcon build --merge-install";
      ". /home/ubuntu/fog_ws/install/setup.bash";
      w_env_cmd W;
      "ros2 launch fogros2 cloud.launch.py" ].

Definition launch_actions (W : World) : list action :=
  [ Print (launch_command W); ExecuteCmd (launch_command W) ].

(** The dictionary of [AWS.info]. *)
Definition aws_info_dict (a : AWS) : dict :=
  info_dict (base a)
  ++ [ ("ec2_region", JStr (region a));
       ("ec2_instance_type", JStr (ec2_instance_type a));
       ("disk_size", JInt (ec2_instance_disk_size a));
       ("aws_ami_image", JStr (aws_ami_image a));
       ("ec2_instance_id",
        JStr (match ec2_instance a with
              | Some i => instance_id i
              | None => ""
              end)) ].

Definition info_path (c : CloudInstance) : string := working_dir c +:+ "info".

Definition persist_actions (a : AWS) : list action :=
  [ WriteFile (info_path (base a)) (FJson (info_dict (base a)));
    WriteFile (info_path (base a)) (FJson (aws_info_dict a)) ].

Definition create_actions (W : World) (a : AWS) (polls : nat) : list action :=
  [ Print "creating EC2 instance" ]
  ++ security_group_actions W a
  ++ key_pair_actions W a
  ++ instance_actions W a polls
  ++ session_actions (base a)
  ++ dependency_actions
  ++ sync_actions (base a)
  ++ persist_actions a
  ++ [ SetReady true ].

(** The handle after [r] reloads. *)
Definition inst (W : World) (r : nat) : Instance :=
  mkInstance (w_instance_id W) r (w_public_ip_address W r).

(** [self.ec2_instance = i; self.public_ip = i.public_ip_address] *)
Definition set_addr (i : Instance) (a : AWS) : AWS :=
  with_base (with_public_ip (public_ip_address i) (base a))
    (with_ec2_instance (Some i) a).

(** The object after a run of [create] that polled the address [N] times. *)
Definition created (W : World) (N : nat) (a : AWS) : AWS :=
  let addr := w_public_ip_address W N in
  with_base
    (with_ready_state true
       (with_scp (Some (mkSCP addr (ssh_key_path (base a))))
          (with_public_ip addr (base a))))
    (with_ec2_instance (Some (inst W N))
       (with_ssh_key (Some (w_key_material W))
          (with_ec2_security_group_ids (Some [w_group_id W]) a))).

(** ** Gate writes and lifetimes *)

Definition gate_writes (l : list action) : list action :=
  List.filter is_gate_write l.

(** In a run of [create] the gate is written at most once, with [true]. *)
Definition at_most_once (s s' : St AWS) : Prop :=
  same_identity (base (self s)) (base (self s'))
  /\ same_config (self s) (self s')
  /\ ready_lock (base (self s')) = ready_lock (base (self s))
  /\ (ready_state (base (self s)) = true -> ready_state (base (self s')) = true)
  /\ exists l, trace (sys s') = trace (sys s) ++ l
               /\ (gate_writes l = [] \/ gate_writes l = [SetReady true]).

(** What no operation changes. *)
Definition kept (s s' : St AWS) : Prop :=
  same_identity (base (self s)) (base (self s'))
  /\ same_config (self s) (self s')
  /\ ready_lock (base (self s')) = ready_lock (base (self s)).

(** The operations of an [AWS] object, its own and the inherited ones. *)
Inductive method : Type :=
  | m_create (fuel : nat)
  | m_info (flush_to_disk : bool)
  | m_connect
  | m_get_ssh_key_path
  | m_get_ip
  | m_get_name
  | m_get_ready_state
  | m_set_ready_state (ready : bool)
  | m_install_cloud_dependencies
  | m_push_ros_workspace
  | m_push_to_cloud_nodes
  | m_push_and_setup_vpn
  | m_configure_DDS
  | m_launch_cloud_node
  | m_get_ssh_key
  | m_create_security_group
  | m_generate_key_pair
  | m_create_ec2_instance (fuel : nat).

Definition invoke (W : World) (m : method) : M AWS unit :=
  match m with
  | m_create fuel => AWS_create W fuel
  | m_info flush => AWS_info W flush ;; ret tt
  | m_connect => on_base (connect W)
  | m_get_ssh_key_path => on_base get_ssh_key_path ;; ret tt
  | m_get_ip => on_base get_ip ;; ret tt
  | m_get_name => on_base get_name ;; ret tt
  | m_get_ready_state => on_base get_ready_state ;; ret tt
  | m_set_ready_state b => on_base (set_ready_state b) ;; ret tt
  | m_install_cloud_dependencies => on_base (install_cloud_dependencies W)
  | m_push_ros_workspace => on_base (push_ros_workspace W)
  | m_push_to_cloud_nodes => on_base (push_to_cloud_nodes W)
  | m_push_and_setup_vpn => on_base (push_and_setup_vpn W)
  | m_configure_DDS => on_base (configure_DDS W)
  | m_launch_cloud_node => on_base (launch_cloud_node W)
  | m_get_ssh_key => get_ssh_key ;; ret tt
  | m_create_security_group => create_security_group W
  | m_generate_key_pair => generate_key_pair W ;; ret tt
  | m_create_ec2_instance fuel => create_ec2_instance W fuel ;; ret tt
  end.

(** The state after a sequence of calls, each started where the previous one
    stopped, whether it returned or raised. *)
Definition lifetime (W : World) (ms : list method) (s : St AWS) : St AWS :=
  fold_left (fun s m => final (invoke W m s)) ms s.

Definition resets_gate (m : method) : bool :=
  match m with
  | m_set_ready_state false => true
  | _ => false
  end.

(** ** Example worlds and records *)

(** Nothing fails; the address shows up on the third reload. *)
Definition calm_world : World :=
  mkWorld (fun _ _ => None) (fun t => Z.of_nat t + 47)
    (Some [Some "vpc-1"]) "sg-1" "KEY" "i-1"
    (fun n => if (n <? 3)%nat then None else Some "10.0.0.5")
    "export CYCLONEDDS_URI=file:///home/ubuntu/cyclonedds.xml"
    (String.concat " && ").

Definition with_fails (f : nat -> action -> option exn) (W : World) : World :=
  mkWorld f (w_random W) (w_vpcs W) (w_group_id W) (w_key_material W)
    (w_instance_id W) (w_public_ip_address W) (w_env_cmd W) (w_bash_get W).

Definition with_addresses (f : nat -> option string) (W : World) : World :=
  mkWorld (w_fails W) (w_random W) (w_vpcs W) (w_group_id W) (w_key_material W)
    (w_instance_id W) f (w_env_cmd W) (w_bash_get W).

(** The cloud refuses to create the security group. *)
Definition refusing_world : World :=
  with_fails
    (fun _ a =>
       match a with
       | CreateSecurityGroup _ _ _ =>
           Some (Foreign "ClientError" "InvalidGroup.Duplicate")
       | _ => None
       end)
    calm_world.

(** The remote host fails to unpack the workspace. *)
Definition unzip_failing_world : World :=
  with_fails
    (fun _ a =>
       match a with
       | ExecuteCmd cmd =>
           if String.eqb cmd "unzip -q /home/ubuntu/ros_workspace.zip"
           then Some (Foreign "RemoteExecutionError" "exit status 9")
           else None
       | _ => None
       end)
    calm_world.

(** The address is the empty string on the first reload. *)
Definition blank_address_world : World :=
  with_addresses
    (fun n => match n with
              | O => None
              | 1%nat => Some ""
              | _ => Some "10.0.0.5"
              end)
    calm_world.

Definition boot : St unit := mkSt tt (mkSys [] ∅).

Definition sample_record : CloudInstance :=
  mkCloudInstance None None None "/tmp/ws" None "57" "/tmp/fogros//57/"
    false false.

Definition sample_aws : AWS :=
  mkAWS
    (with_ssh_key_path (Some "/tmp/fogros//57/FogROSKEYAWS59.pem")
       (with_unique_name "AWS59" sample_record))
    default_region default_ec2_instance_type default_disk_size
    default_ami_image "FOGROS_SECURITY_GROUPAWS59" "FogROSKEYAWS59"
    None None None.

Definition fresh {T} (x : T) : St T := mkSt x (mkSys [] ∅).

(** The system after the constructor of [sample_aws] has set its fields. *)
Definition constructed : St unit :=
  mkSt tt
    (mkSys
       [ Randint 10 1000; Makedirs "/tmp/fogros//57/"; Randint 10 1000;
         Boto3Resource "ec2" default_region; Boto3Client "ec2" default_region ]
       ∅).

(** ** Steps that [create] does not run *)

(** Whether action [a] occurs in the trace [l]. *)
Definition performed (l : list action) (a : action) : bool :=
  bool_decide (a ∈ l).

(** The actions by which the overlay and middleware steps are recognised:
    they send to the VPN and DDS configuration files, bring the VPN up and
    generate the DDS configuration. *)
Definition is_overlay_or_middleware (a : action) : bool :=
  match a with
  | GenerateConfigFile _ => true
  | SendFile _ dst =>
      String.eqb dst "/tmp/fogros-aws.conf" || String.eqb dst "~/cyclonedds.xml"
  | ExecuteCmd cmd =>
      String.eqb cmd
        "sudo cp /tmp/fogros-aws.conf /etc/wireguard/wg0.conf && sudo chmod 600 /etc/wireguard/wg0.conf && sudo wg-quick up wg0"
  | _ => false
  end.

(** Whether [path] is written after the gate has been set, and whether it is
    written before the session is opened. *)
Fixpoint written_after_ready (path : string) (l : list action) : bool :=
  match l with
  | [] => false
  | SetReady true :: l' => existsb (is_write_to path) l'
  | _ :: l' => written_after_ready path l'
  end.

Fixpoint written_before_session (path : string) (l : list action) : bool :=
  match l with
  | [] => false
  | ScpConnect _ _ :: _ => false
  | a :: l' => is_write_to path a || written_before_session path l'
  end.

(** ** Runs that raise *)

(** A computation runs within [acts] when, whatever its outcome, it leaves
    the object and the files alone and adds to the trace a prefix of [acts],
    all of [acts] when it returns. *)
Definition runs_within (acts : list action) {A} (m : M CloudInstance A) : Prop :=
  forall s,
    self (final (m s)) = self s
    /\ fs (sys (final (m s))) = fs (sys s)
    /\ exists l, trace (sys (final (m s))) = trace (sys s) ++ l
                 /\ l `prefix_of` acts
                 /\ (returned (m s) <> None -> l = acts).

(** The steps of [create] before the workspace sync. *)
Definition steps_before_sync (W : World) (fuel : nat) : M AWS unit :=
  emit (Print "creating EC2 instance") ;;
  create_security_group W ;;
  generate_key_pair W ;;
  create_ec2_instance W fuel ;;
  on_base (connect W) ;;
  on_base (install_cloud_dependencies W).

(** ** The address poll *)

(** The calls of the instance API, and a world in which they do not fail. *)
Definition is_instance_call (a : action) : bool :=
  match a with
  | CreateInstances _ _ _ _ _ | WaitUntilRunning | Reload => true
  | _ => false
  end.

Definition instance_api_reliable (W : World) : Prop :=
  forall t a, is_instance_call a = true -> w_fails W t a = None.

(** The address first is true (neither [None] nor empty) on the [N]-th
    reload. *)
Definition first_address_at (W : World) (N : nat) : Prop :=
  (1 <= N)%nat
  /\ truthy (w_public_ip_address W N) = true
  /\ forall j : nat, (1 <= j < N)%nat -> truthy (w_public_ip_address W j) = false.

Definition count_reloads (l : list action) : nat :=
  length (List.filter is_reload l).

(** ** Vocabulary of the further properties *)

(** The calls that go through the SCP session, and the calls of the three
    steps that [create] leaves to its caller. *)
Definition is_remote_call (a : action) : bool :=
  match a with
  | ExecuteCmd _ | SendFile _ _ => true
  | _ => false
  end.

Definition is_deploy_call (a : action) : bool :=
  match a with
  | ExecuteCmd _ | SendFile _ _ | GenerateConfigFile _ => true
  | _ => false
  end.

Definition deploy_reliable (W : World) : Prop :=
  forall t a, is_deploy_call a = true -> w_fails W t a = None.

(** [push_and_setup_vpn], [configure_DDS] and [launch_cloud_node] called in
    the order in which the class lists them. *)
Definition deploy_steps (W : World) : M AWS unit :=
  on_base (push_and_setup_vpn W) ;;
  on_base (configure_DDS W) ;;
  on_base (launch_cloud_node W).

Definition with_vpcs (v : option (list (option string))) (W : World) : World :=
  mkWorld (w_fails W) (w_random W) v (w_group_id W) (w_key_material W)
    (w_instance_id W) (w_public_ip_address W) (w_env_cmd W) (w_bash_get W).

(** The account has no VPC. *)
Definition no_vpc_world : World := with_vpcs (Some []) calm_world.

(** The instance never reaches the running state. *)
Definition impatient_world : World :=
  with_fails
    (fun _ a =>
       match a with
       | WaitUntilRunning => Some (Foreign "WaiterError" "Max attempts exceeded")
       | _ => None
       end)
    calm_world.

(** The group is created, the ingress rule is refused. *)
Definition ingress_refusing_world : World :=
  with_fails
    (fun _ a =>
       match a with
       | AuthorizeIngress _ =>
           Some (Foreign "ClientError" "InvalidPermission.Malformed")
       | _ => None
       end)
    calm_world.

(** The instance never gets an address. *)
Definition silent_world : World := with_addresses (fun _ => None) calm_world.

(** A record whose lock is held, and one with an open session. *)
Definition held_record : CloudInstance := with_ready_lock true sample_record.

Definition connected_record : CloudInstance :=
  with_scp (Some (mkSCP (Some "10.0.0.5") (Some "/tmp/k.pem"))) sample_record.

(** A step fails fast within [acts] when, whatever its outcome, it leaves the
    record and the files alone and performs a prefix of [acts], all of them
    when it returns. *)
Definition fails_fast {A} (acts : CloudInstance -> list action)
    (m : M CloudInstance A) : Prop :=
  forall s,
    self (final (m s)) = self s
    /\ fs (sys (final (m s))) = fs (sys s)
    /\ exists l, trace (sys (final (m s))) = trace (sys s) ++ l
                 /\ l `prefix_of` acts (self s)
                 /\ (returned (m s) <> None -> l = acts (self s)).

(** * Lemmas *)

(** ** Basic facts about the monad *)

Lemma bind_Ok {T A B} (m : M T A) (k : A -> M T B) s b s' :
  bind m k s = Ok b s' -> exists a s1, m s = Ok a s1 /\ k a s1 = Ok b s'.
Proof.
  unfold bind. destruct (m s) as [a s1|e s1|s1]; try discriminate.
  intros H. exists a, s1. split; [reflexivity|exact H].
Qed.

Lemma trace_log {T} (a : action) (s : St T) :
  trace (sys (log a s)) = trace (sys s) ++ [a].
Proof. reflexivity. Qed.

Lemma added_app (old l : list action) : added old (old ++ l) = l.
Proof. unfold added. apply drop_app_length. Qed.

Section Facts.

Context (W : World).

Lemma ext_Ok {T} (a : action) (s : St T) u s' :
  ext W a s = Ok u s' ->
  w_fails W (length (trace (sys s))) a = None /\ s' = log a s.
Proof.
  unfold ext. destruct (w_fails W _ a); [discriminate|].
  intros H. injection H as _ <-. split; reflexivity.
Qed.

Lemma on_base_Ok {A} (m : M CloudInstance A) (s : St AWS) a s' :
  on_base m s = Ok a s' ->
  exists t, m (mkSt (base (self s)) (sys s)) = Ok a t
            /\ s' = mkSt (with_base (self t) (self s)) (sys t).
Proof.
  unfold on_base, lift.
  destruct (m _) as [a1 t|e t|t]; try discriminate.
  intros H. injection H as <- <-. exists t. split; reflexivity.
Qed.

(** ** The readiness gate *)

Lemma set_ready_state_free (b : bool) (s : St CloudInstance) :
  ready_lock (self s) = false ->
  set_ready_state b s
  = Ok b (log (SetReady b) (mkSt (with_ready_state b (self s)) (sys s))).
Proof.
  intros Hl. destruct s as [[cb sc pi rw sk un wd lk rs] y].
  simpl in Hl. subst lk. reflexivity.
Qed.

Lemma get_ready_state_free (s : St CloudInstance) :
  ready_lock (self s) = false ->
  get_ready_state s = Ok (ready_state (self s)) s.
Proof.
  intros Hl. destruct s as [[cb sc pi rw sk un wd lk rs] y].
  simpl in Hl. subst lk. reflexivity.
Qed.

Lemma get_ready_state_times_free (n : nat) (s : St CloudInstance) :
  ready_lock (self s) = false ->
  get_ready_state_times n s = Ok (repeat (ready_state (self s)) n) s.
Proof.
  intros Hl. induction n as [|n IH]; simpl.
  - reflexivity.
  - unfold bind at 1. rewrite (get_ready_state_free s Hl).
    unfold bind at 1. rewrite IH. reflexivity.
Qed.

End Facts.

(** ** What the operations leave alone *)

Lemma same_identity_refl c : same_identity c c.
Proof. repeat split. Qed.

Lemma same_identity_trans c1 c2 c3 :
  same_identity c1 c2 -> same_identity c2 c3 -> same_identity c1 c3.
Proof.
  unfold same_identity. intros (?&?&?&?) (?&?&?&?). repeat split; congruence.
Qed.

Lemma same_config_refl a : same_config a a.
Proof. repeat split. Qed.

Lemma same_config_trans a1 a2 a3 :
  same_config a1 a2 -> same_config a2 a3 -> same_config a1 a3.
Proof.
  unfold same_config. intros (?&?&?&?&?&?) (?&?&?&?&?&?).
  repeat split; congruence.
Qed.

Lemma quiet_refl s : quiet s s.
Proof.
  split; [apply same_identity_refl|]. do 2 (split; [reflexivity|]).
  exists []. split; [symmetry; apply app_nil_r|reflexivity].
Qed.

Lemma quiet_trans s1 s2 s3 : quiet s1 s2 -> quiet s2 s3 -> quiet s1 s3.
Proof.
  intros (Hi1 & Hr1 & Hl1 & l1 & Ht1 & Hg1) (Hi2 & Hr2 & Hl2 & l2 & Ht2 & Hg2).
  split; [eapply same_identity_trans; eassumption|].
  do 2 (split; [congruence|]).
  exists (l1 ++ l2). split.
  - rewrite Ht2, Ht1. symmetry. apply app_assoc.
  - unfold no_gate_write in *. rewrite forallb_app, Hg1, Hg2. reflexivity.
Qed.

Lemma quietA_refl s : quietA s s.
Proof. split; [apply quiet_refl|apply same_config_refl]. Qed.

Lemma quietA_trans s1 s2 s3 : quietA s1 s2 -> quietA s2 s3 -> quietA s1 s3.
Proof.
  intros [H1 C1] [H2 C2]. split.
  - eapply quiet_trans; eassumption.
  - eapply same_config_trans; eassumption.
Qed.

Section Preservation.

Context {T : Type} (R : St T -> St T -> Prop).
Hypothesis R_refl : forall s, R s s.
Hypothesis R_trans : forall s1 s2 s3, R s1 s2 -> R s2 s3 -> R s1 s3.

Lemma preserves_ret {A} (a : A) : preserves R (ret a).
Proof. intros s. apply R_refl. Qed.

Lemma preserves_raise {A} (e : exn) : preserves R (@raise T A e).
Proof. intros s. apply R_refl. Qed.

Lemma preserves_hang {A} : preserves R (@hang T A).
Proof. intros s. apply R_refl. Qed.

Lemma preserves_get_self : preserves R get_self.
Proof. intros s. apply R_refl. Qed.

Lemma preserves_load_global (name : string) : preserves R (load_global name).
Proof.
  unfold load_global. destruct (assoc name module_globals); intros s; apply R_refl.
Qed.

Lemma preserves_bind {A B} (m : M T A) (k : A -> M T B) :
  preserves R m -> (forall a, preserves R (k a)) -> preserves R (bind m k).
Proof.
  intros Hm Hk s. unfold bind. specialize (Hm s).
  destruct (m s) as [a s1|e s1|s1]; simpl in Hm; simpl; try exact Hm.
  eapply R_trans; [exact Hm|apply Hk].
Qed.

Lemma preserves_try_except {A} (m : M T A) (h : exn -> M T A) :
  preserves R m -> (forall e, preserves R (h e)) -> preserves R (try_except m h).
Proof.
  intros Hm Hh s. unfold try_except. specialize (Hm s).
  destruct (m s) as [a s1|e s1|s1]; simpl in Hm; simpl; try exact Hm.
  eapply R_trans; [exact Hm|apply Hh].
Qed.

End Preservation.

(** A step related by [R1] followed by steps related by [R2]. *)
Lemma preserves_bind_then {T A B} (R1 R2 R3 : St T -> St T -> Prop)
    (m : M T A) (k : A -> M T B) :
  (forall s s', R1 s s' -> R3 s s') ->
  (forall s1 s2 s3, R1 s1 s2 -> R2 s2 s3 -> R3 s1 s3) ->
  preserves R1 m -> (forall a, preserves R2 (k a)) -> preserves R3 (bind m k).
Proof.
  intros Hsub Hcomp Hm Hk s. unfold bind. specialize (Hm s).
  destruct (m s) as [a s1|e s1|s1]; simpl in Hm; simpl;
    try (apply Hsub; exact Hm).
  eapply Hcomp; [exact Hm|apply Hk].
Qed.

Section Quiet.

Context (W : World).

Lemma quiet_log (a : action) (s : St CloudInstance) :
  is_gate_write a = false -> quiet s (log a s).
Proof.
  intros Ha. split; [apply same_identity_refl|].
  do 2 (split; [reflexivity|]).
  exists [a]. split; [reflexivity|]. simpl. rewrite Ha. reflexivity.
Qed.

Lemma quiet_ext (a : action) :
  is_gate_write a = false -> preserves quiet (ext W a).
Proof.
  intros Ha s. unfold ext.
  destruct (w_fails W _ a); simpl; apply quiet_log; exact Ha.
Qed.

Lemma quiet_emit (a : action) :
  is_gate_write a = false -> preserves quiet (emit a).
Proof. intros Ha s. apply quiet_log; exact Ha. Qed.

Lemma quiet_modify (f : CloudInstance -> CloudInstance) :
  (forall c, same_identity c (f c) /\ ready_state (f c) = ready_state c
             /\ ready_lock (f c) = ready_lock c) ->
  preserves quiet (modify f).
Proof.
  intros Hf s. destruct (Hf (self s)) as (Hi & Hr & Hl).
  split; [exact Hi|]. do 2 (split; [assumption|]).
  exists []. split; [symmetry; apply app_nil_r|reflexivity].
Qed.

Lemma quiet_write_file (path : string) (c : file) :
  preserves quiet (write_file W path c).
Proof.
  unfold write_file. apply (preserves_bind quiet quiet_trans).
  - apply quiet_ext. reflexivity.
  - intros _ s. simpl. split; [apply same_identity_refl|].
    do 2 (split; [reflexivity|]).
    exists []. split; [symmetry; apply app_nil_r|reflexivity].
Qed.

End Quiet.

Ltac quiet_step :=
  first
    [ apply (preserves_bind quiet quiet_trans); [|intros ?]
    | apply (preserves_ret quiet quiet_refl)
    | apply (preserves_raise quiet quiet_refl)
    | apply (preserves_get_self quiet quiet_refl)
    | apply quiet_ext; reflexivity
    | apply quiet_emit; reflexivity
    | apply quiet_write_file
    | apply quiet_modify; intros ?; repeat split
    | match goal with
      | |- preserves _ (match ?x with _ => _ end) => destruct x
      end ].

Section QuietMethods.

Context (W : World).

Lemma quiet_execute_cmd cmd : preserves quiet (execute_cmd W cmd).
Proof. unfold execute_cmd. repeat quiet_step. Qed.

Lemma quiet_send_file src dst : preserves quiet (send_file W src dst).
Proof. unfold send_file. repeat quiet_step. Qed.

Lemma quiet_info flush : preserves quiet (info W flush).
Proof. unfold info. repeat quiet_step. Qed.

Lemma quiet_connect : preserves quiet (connect W).
Proof. unfold connect. repeat quiet_step. Qed.

Lemma quiet_get_ready_state : preserves quiet get_ready_state.
Proof.
  intros [[cb sc pi rw sk un wd lk rs] y]. destruct lk; apply quiet_refl.
Qed.

Lemma quiet_install_cloud_dependencies :
  preserves quiet (install_cloud_dependencies W).
Proof.
  unfold install_cloud_dependencies.
  apply (preserves_bind quiet quiet_trans); [|intros ?]; apply quiet_execute_cmd.
Qed.

Lemma quiet_push_ros_workspace : preserves quiet (push_ros_workspace W).
Proof.
  unfold push_ros_workspace.
  repeat first [ apply quiet_execute_cmd | apply quiet_send_file | quiet_step ].
Qed.

Lemma quiet_push_to_cloud_nodes : preserves quiet (push_to_cloud_nodes W).
Proof.
  unfold push_to_cloud_nodes. repeat first [ apply quiet_send_file | quiet_step ].
Qed.

Lemma quiet_push_and_setup_vpn : preserves quiet (push_and_setup_vpn W).
Proof.
  unfold push_and_setup_vpn.
  repeat first [ apply quiet_execute_cmd | apply quiet_send_file | quiet_step ].
Qed.

Lemma quiet_configure_DDS : preserves quiet (configure_DDS W).
Proof.
  unfold configure_DDS. repeat first [ apply quiet_send_file | quiet_step ].
Qed.

Lemma quiet_launch_cloud_node : preserves quiet (launch_cloud_node W).
Proof.
  unfold launch_cloud_node. repeat first [ apply quiet_execute_cmd | quiet_step ].
Qed.

(** Base-class methods on an [AWS] object. *)
Lemma quietA_on_base {A} (m : M CloudInstance A) :
  preserves quiet m -> preserves quietA (on_base m).
Proof.
  intros Hm s. specialize (Hm (view s)).
  unfold on_base, lift. fold (view s).
  destruct (m (view s)) as [a [c y]|e [c y]|[c y]]; simpl in *;
    (split; [exact Hm|repeat split]).
Qed.

Lemma quietA_log (a : action) (s : St AWS) :
  is_gate_write a = false -> quietA s (log a s).
Proof.
  intros Ha. split; [|apply same_config_refl].
  apply (quiet_log a (view s) Ha).
Qed.

Lemma quietA_ext (a : action) :
  is_gate_write a = false -> preserves quietA (ext W a).
Proof.
  intros Ha s. unfold ext.
  destruct (w_fails W _ a); simpl; apply quietA_log; exact Ha.
Qed.

Lemma quietA_emit (a : action) :
  is_gate_write a = false -> preserves quietA (emit a).
Proof. intros Ha s. apply quietA_log; exact Ha. Qed.

Lemma quietA_modify (f : AWS -> AWS) :
  (forall a, same_identity (base a) (base (f a))
             /\ ready_state (base (f a)) = ready_state (base a)
             /\ ready_lock (base (f a)) = ready_lock (base a)
             /\ same_config a (f a)) ->
  preserves quietA (modify f).
Proof.
  intros Hf s. destruct (Hf (self s)) as (Hi & Hr & Hl & Hc).
  split; [|exact Hc]. split; [exact Hi|]. do 2 (split; [assumption|]).
  exists []. split; [symmetry; apply app_nil_r|reflexivity].
Qed.

Lemma quietA_write_file (path : string) (c : file) :
  preserves quietA (write_file W path c).
Proof.
  unfold write_file. apply (preserves_bind quietA quietA_trans).
  - apply quietA_ext. reflexivity.
  - intros _ s. simpl. split; [|apply same_config_refl].
    split; [apply same_identity_refl|]. do 2 (split; [reflexivity|]).
    exists []. split; [symmetry; apply app_nil_r|reflexivity].
Qed.

End QuietMethods.

Ltac quietA_step :=
  first
    [ apply (preserves_bind quietA quietA_trans); [|intros ?]
    | apply (preserves_try_except quietA quietA_trans); [|intros ?]
    | apply (preserves_ret quietA quietA_refl)
    | apply (preserves_raise quietA quietA_refl)
    | apply (preserves_get_self quietA quietA_refl)
    | apply (preserves_load_global quietA quietA_refl)
    | apply quietA_ext; reflexivity
    | apply quietA_emit; reflexivity
    | apply quietA_write_file
    | apply quietA_modify; intros ?; repeat split
    | match goal with
      | |- preserves _ (match ?x with _ => _ end) => destruct x
      | |- preserves _ (if ?x then _ else _) => destruct x
      end ].

Section QuietAWS.

Context (W : World).

Lemma quietA_create_security_group : preserves quietA (create_security_group W).
Proof. unfold create_security_group. repeat quietA_step. Qed.

Lemma quietA_generate_key_pair : preserves quietA (generate_key_pair W).
Proof. unfold generate_key_pair. repeat quietA_step. Qed.

Lemma quietA_poll_public_ip fuel instance :
  preserves quietA (poll_public_ip W fuel instance).
Proof.
  revert instance. induction fuel as [|fuel IH]; intros instance s; simpl.
  - destruct (truthy _); apply quietA_refl.
  - destruct (truthy _); [apply quietA_refl|].
    revert s. fold (preserves (A:=Instance) quietA).
    repeat first [ apply IH | quietA_step ].
Qed.

Lemma quietA_create_ec2_instance fuel :
  preserves quietA (create_ec2_instance W fuel).
Proof.
  unfold create_ec2_instance.
  repeat first [ apply quietA_poll_public_ip | quietA_step ].
Qed.

Lemma quietA_AWS_info flush : preserves quietA (AWS_info W flush).
Proof.
  unfold AWS_info.
  repeat first [ apply quietA_on_base, quiet_info | quietA_step ].
Qed.

End QuietAWS.

(** ** Runs that return *)

Lemma ret_Ok {T A} (a b : A) (s s' : St T) :
  ret a s = Ok b s' -> b = a /\ s' = s.
Proof. unfold ret. intros H. injection H as <- <-. split; reflexivity. Qed.

Lemma emit_Ok {T} (a : action) (s s' : St T) u :
  emit a s = Ok u s' -> s' = log a s.
Proof. unfold emit. intros H. injection H as _ <-. reflexivity. Qed.

Lemma get_self_Ok {T} (x : T) (s s' : St T) :
  get_self s = Ok x s' -> x = self s /\ s' = s.
Proof. unfold get_self. intros H. injection H as <- <-. split; reflexivity. Qed.

Lemma modify_Ok {T} (f : T -> T) (s s' : St T) u :
  modify f s = Ok u s' -> s' = mkSt (f (self s)) (sys s).
Proof. unfold modify. intros H. injection H as _ <-. reflexivity. Qed.

Ltac inv_ok :=
  repeat match goal with
  | H : bind _ _ _ = Ok _ _ |- _ =>
      apply bind_Ok in H; destruct H as (? & ? & ? & H)
  | H : ext _ _ _ = Ok _ _ |- _ =>
      apply ext_Ok in H; destruct H as [? ->]
  | H : emit _ _ = Ok _ _ |- _ => apply emit_Ok in H; subst
  | H : ret _ _ = Ok _ _ |- _ => apply ret_Ok in H; destruct H as [? ?]; subst
  | H : get_self _ = Ok _ _ |- _ =>
      apply get_self_Ok in H; destruct H as [? ?]; subst
  | H : modify _ _ = Ok _ _ |- _ => apply modify_Ok in H; subst
  | H : raise _ _ = Ok _ _ |- _ => discriminate H
  | H : hang _ = Ok _ _ |- _ => discriminate H
  end.

Section Returns.

Context (W : World).

Lemma write_file_Ok {T} path c (s s' : St T) u :
  write_file W path c s = Ok u s' ->
  s' = stored path c (log (WriteFile path c) s).
Proof.
  unfold write_file. intros H. inv_ok. congruence.
Qed.

Lemma execute_cmd_Ok cmd (s s' : St CloudInstance) u :
  execute_cmd W cmd s = Ok u s' -> s' = log (ExecuteCmd cmd) s.
Proof.
  unfold execute_cmd. intros H. inv_ok.
  destruct (scp (self s)); inv_ok. reflexivity.
Qed.

Lemma send_file_Ok src dst (s s' : St CloudInstance) u :
  send_file W src dst s = Ok u s' -> s' = log (SendFile src dst) s.
Proof.
  unfold send_file. intros H. inv_ok.
  destruct (scp (self s)); inv_ok. reflexivity.
Qed.

End Returns.

Ltac inv_calls :=
  repeat match goal with
  | H : execute_cmd _ _ _ = Ok _ _ |- _ => apply execute_cmd_Ok in H
  | H : send_file _ _ _ _ = Ok _ _ |- _ => apply send_file_Ok in H
  | H : write_file _ _ _ _ = Ok _ _ |- _ => apply write_file_Ok in H
  end.

(** ** What each step adds when it returns *)

Lemma try_except_Ok {T A} (m : M T A) (h : exn -> M T A) s a s' :
  try_except m h s = Ok a s' ->
  m s = Ok a s' \/ exists e s1, m s = Raise e s1 /\ h e s1 = Ok a s'.
Proof.
  unfold try_except. destruct (m s) as [a1 s1|e s1|s1]; intros H.
  - left. exact H.
  - right. exists e, s1. split; [reflexivity|exact H].
  - discriminate H.
Qed.

Section StepReturns.

Context (W : World).

Lemma connect_Ok (s s' : St CloudInstance) u :
  connect W s = Ok u s' ->
  s' = mkSt (with_scp (Some (mkSCP (public_ip (self s)) (ssh_key_path (self s))))
               (self s))
            (mkSys (trace (sys s) ++ session_actions (self s)) (fs (sys s))).
Proof. unfold connect. intros H. inv_ok. reflexivity. Qed.

Lemma install_cloud_dependencies_Ok (s s' : St CloudInstance) u :
  install_cloud_dependencies W s = Ok u s' ->
  s' = mkSt (self s) (mkSys (trace (sys s) ++ dependency_actions) (fs (sys s))).
Proof.
  unfold install_cloud_dependencies. intros H. inv_ok. inv_calls. subst.
  unfold log. simpl. rewrite <- app_assoc. reflexivity.
Qed.

Lemma push_ros_workspace_Ok (s s' : St CloudInstance) u :
  push_ros_workspace W s = Ok u s' ->
  s' = mkSt (self s)
            (mkSys (trace (sys s) ++ sync_actions (self s)) (fs (sys s))).
Proof.
  unfold push_ros_workspace. intros H. inv_ok. inv_calls. subst. unfold log. simpl. rewrite <- !app_assoc. reflexivity.
Qed.

Lemma info_Ok (s s' : St CloudInstance) d :
  info W true s = Ok d s' ->
  d = info_dict (self s)
  /\ s' = mkSt (self s)
               (mkSys (trace (sys s)
                       ++ [WriteFile (info_path (self s)) (FJson (info_dict (self s)))])
                      (<[info_path (self s) := FJson (info_dict (self s))]>
                         (fs (sys s)))).
Proof.
  unfold info. intros H. inv_ok. inv_calls. subst.
  split; reflexivity.
Qed.

Lemma info_no_flush (s : St CloudInstance) :
  info W false s = Ok (info_dict (self s)) s.
Proof. reflexivity. Qed.

Lemma set_ready_state_Ok b (s s' : St CloudInstance) r :
  set_ready_state b s = Ok r s' ->
  ready_lock (self s) = false /\ r = b
  /\ s' = mkSt (with_ready_state b (self s))
               (mkSys (trace (sys s) ++ [SetReady b]) (fs (sys s))).
Proof.
  destruct (ready_lock (self s)) eqn:Hl.
  - destruct s as [[cb sc pi rw sk un wd lk rs] y]. simpl in Hl. subst lk.
    discriminate.
  - rewrite (set_ready_state_free b s Hl). intros H. injection H as <- <-.
    repeat split.
Qed.

Lemma push_and_setup_vpn_Ok (s s' : St CloudInstance) u :
  push_and_setup_vpn W s = Ok u s' ->
  s' = mkSt (self s)
            (mkSys (trace (sys s) ++ overlay_actions (self s)) (fs (sys s))).
Proof.
  unfold push_and_setup_vpn. intros H. inv_ok. inv_calls. subst.
  unfold log. simpl. rewrite <- !app_assoc. reflexivity.
Qed.

Lemma configure_DDS_Ok (s s' : St CloudInstance) u :
  configure_DDS W s = Ok u s' ->
  s' = mkSt (with_cyclone_builder (Some ["10.0.0.1"]) (self s))
            (mkSys (trace (sys s) ++ middleware_actions) (fs (sys s))).
Proof.
  unfold configure_DDS. intros H. inv_ok. inv_calls. subst.
  unfold log. simpl. rewrite <- !app_assoc. reflexivity.
Qed.

Lemma launch_cloud_node_Ok (s s' : St CloudInstance) u :
  launch_cloud_node W s = Ok u s' ->
  s' = mkSt (self s)
            (mkSys (trace (sys s) ++ launch_actions W) (fs (sys s))).
Proof.
  unfold launch_cloud_node. intros H. inv_ok.
  destruct (cyclone_builder (self s)); inv_ok. inv_calls. subst.
  unfold log. simpl. rewrite <- !app_assoc. reflexivity.
Qed.

End StepReturns.

(** The two names the module uses without binding them. *)
Lemma load_global_ClientError {T} (s : St T) :
  load_global "ClientError" s = Raise (NameError "ClientError") s.
Proof. reflexivity. Qed.

Lemma load_global_public_ip {T} (s : St T) :
  load_global "public_ip" s = Raise (NameError "public_ip") s.
Proof. reflexivity. Qed.

Section BackendReturns.

Context (W : World).

Lemma create_security_group_Ok (s s' : St AWS) u :
  create_security_group W s = Ok u s' ->
  s' = mkSt (with_ec2_security_group_ids (Some [w_group_id W]) (self s))
            (mkSys (trace (sys s) ++ security_group_actions W (self s))
                   (fs (sys s))).
Proof.
  unfold create_security_group. intros H. inv_ok.
  match goal with
  | H : try_except _ _ _ = Ok _ _ |- _ =>
      apply try_except_Ok in H; destruct H as [H|(e & s1 & _ & H)];
      [|apply bind_Ok in H; destruct H as (? & ? & H & _);
        rewrite load_global_ClientError in H; discriminate H]
  end.
  inv_ok.
  match goal with
  | H : match w_vpcs W with _ => _ end _ = Ok ?v ?st |- _ =>
      assert (v = vpc_id W /\ st = log DescribeVpcs s) as [-> ->]
        by (unfold vpc_id; destruct (w_vpcs W) as [[|? ?]|]; inv_ok;
            split; reflexivity)
  end.
  unfold log, security_group_actions. simpl.
  rewrite <- !app_assoc. reflexivity.
Qed.

Lemma generate_key_pair_Ok (s s' : St AWS) k :
  generate_key_pair W s = Ok k s' ->
  exists path, ssh_key_path (base (self s)) = Some path
  /\ k = w_key_material W
  /\ s' = mkSt (with_ssh_key (Some (w_key_material W)) (self s))
               (mkSys (trace (sys s) ++ key_pair_actions W (self s))
                      (<[path := FText (w_key_material W)]> (fs (sys s)))).
Proof.
  unfold generate_key_pair. intros H. inv_ok.
  destruct (ssh_key_path (base (self s))) as [path|] eqn:Hp; inv_ok.
  inv_calls. subst. exists path. split; [reflexivity|]. split; [reflexivity|].
  unfold log, stored, key_pair_actions. simpl. rewrite Hp. simpl.
  rewrite <- !app_assoc. reflexivity.
Qed.

(** The polling loop, when it returns: it has reloaded [k] times, every
    address before the last was false, the last is true. *)
Lemma poll_public_ip_Ok (fuel : nat) :
  forall (r : nat) (a0 : AWS) (s : St AWS) i' s',
    self s = set_addr (inst W r) a0 ->
    poll_public_ip W fuel (inst W r) s = Ok i' s' ->
    exists k : nat,
      (k <= fuel)%nat
      /\ i' = inst W (r + k)
      /\ s' = mkSt (set_addr (inst W (r + k)) a0)
                   (mkSys (trace (sys s) ++ repeat Reload k) (fs (sys s)))
      /\ truthy (w_public_ip_address W (r + k)) = true
      /\ (forall j : nat, (r <= j < r + k)%nat ->
                          truthy (w_public_ip_address W j) = false).
Proof.
  induction fuel as [|fuel IH]; intros r a0 s i' s' Hs H; simpl in H;
    rewrite Hs in H; simpl in H;
    destruct (truthy (w_public_ip_address W r)) eqn:Ht.
  - injection H as <- <-. exists 0%nat. rewrite Nat.add_0_r.
    split; [lia|]. split; [reflexivity|]. split.
    + destruct s as [a [t f]]. simpl in *. subst a.
      rewrite app_nil_r. reflexivity.
    + split; [exact Ht|]. intros j Hj. lia.
  - discriminate H.
  - injection H as <- <-. exists 0%nat. rewrite Nat.add_0_r.
    split; [lia|]. split; [reflexivity|]. split.
    + destruct s as [a [t f]]. simpl in *. subst a.
      rewrite app_nil_r. reflexivity.
    + split; [exact Ht|]. intros j Hj. lia.
  - inv_ok.
    match goal with
    | H : poll_public_ip _ _ _ _ = Ok _ _ |- _ =>
        apply (IH (S r) a0) in H; [|simpl; rewrite Hs; reflexivity]
    end.
    destruct H as (k & Hk & -> & -> & Ht' & Hf).
    exists (S k). replace (r + S k)%nat with (S r + k)%nat by lia.
    split; [lia|]. split; [reflexivity|]. split.
    + simpl. rewrite <- app_assoc. reflexivity.
    + split; [exact Ht'|]. intros j Hj.
      destruct (decide (j = r)) as [->|Hne]; [exact Ht|]. apply Hf. lia.
Qed.

Lemma create_ec2_instance_Ok (fuel : nat) (s s' : St AWS) i :
  create_ec2_instance W fuel s = Ok i s' ->
  exists N : nat,
    (1 <= N <= S fuel)%nat
    /\ i = inst W N
    /\ truthy (w_public_ip_address W N) = true
    /\ (forall j : nat, (1 <= j < N)%nat ->
                        truthy (w_public_ip_address W j) = false)
    /\ s' = mkSt (set_addr (inst W N) (self s))
                 (mkSys (trace (sys s) ++ instance_actions W (self s) N)
                        (fs (sys s))).
Proof.
  unfold create_ec2_instance. intros H. inv_ok.
  match goal with
  | Hp : poll_public_ip _ _ _ _ = Ok _ _ |- _ =>
      apply (poll_public_ip_Ok fuel 1 (self s)) in Hp;
      [destruct Hp as (k & Hk & -> & -> & Ht & Hf)|reflexivity]
  end.
  change (1 + k)%nat with (S k) in *.
  exists (S k).
  match goal with
  | H : match public_ip _ with _ => _ end _ = Ok _ _ |- _ =>
      simpl in H;
      destruct (w_public_ip_address W (S k)) as [addr|] eqn:Ha;
      [|simpl in Ht; discriminate Ht]; inv_ok
  end.
  split; [lia|]. split; [reflexivity|]. split; [exact Ht|].
  split; [exact Hf|].
  unfold log, instance_actions. simpl.
  rewrite Nat.sub_0_r, <- !app_assoc, ?Ha. reflexivity.
Qed.

End BackendReturns.

Section CreateReturns.

Context (W : World).

Lemma AWS_info_Ok (s s' : St AWS) d :
  AWS_info W true s = Ok d s' ->
  ec2_instance (self s) <> None
  /\ d = aws_info_dict (self s)
  /\ s' = mkSt (self s)
               (mkSys (trace (sys s) ++ persist_actions (self s))
                  (<[info_path (base (self s)) := FJson (aws_info_dict (self s))]>
                     (<[info_path (base (self s)) := FJson (info_dict (base (self s)))]>
                        (fs (sys s))))).
Proof.
  unfold AWS_info. intros H. inv_ok.
  match goal with
  | H : on_base _ _ = Ok _ _ |- _ =>
      apply on_base_Ok in H; destruct H as (t & H & ->);
      apply info_Ok in H; destruct H as [-> ->]
  end.
  simpl in H.
  destruct s as [a y]. simpl in *.
  assert (with_base (base a) a = a) as Hb by (destruct a; reflexivity).
  rewrite Hb in H.
  destruct (ec2_instance a) as [i|] eqn:Hi; inv_ok. inv_calls. subst.
  split; [discriminate|]. unfold aws_info_dict. rewrite Hi.
  split; [reflexivity|].
  unfold stored, log, persist_actions, aws_info_dict, info_path. simpl.
  rewrite Hi, <- !app_assoc. reflexivity.
Qed.

Lemma AWS_create_Ok (fuel : nat) (s s' : St AWS) u :
  AWS_create W fuel s = Ok u s' ->
  exists (N : nat) (path : string),
    (1 <= N <= S fuel)%nat
    /\ ssh_key_path (base (self s)) = Some path
    /\ ready_lock (base (self s)) = false
    /\ truthy (w_public_ip_address W N) = true
    /\ (forall j : nat, (1 <= j < N)%nat ->
                        truthy (w_public_ip_address W j) = false)
    /\ self s' = created W N (self s)
    /\ trace (sys s') = trace (sys s) ++ create_actions W (self s') N
    /\ fs (sys s')
       = <[info_path (base (self s')) := FJson (aws_info_dict (self s'))]>
           (<[info_path (base (self s')) := FJson (info_dict (base (self s')))]>
              (<[path := FText (w_key_material W)]> (fs (sys s)))).
Proof.
  destruct s as [a [t f]]. unfold AWS_create. intros H.
  apply bind_Ok in H. destruct H as (? & s1 & H1 & H).
  apply emit_Ok in H1. subst s1. unfold log in H. cbn [self sys trace fs] in H.
  apply bind_Ok in H. destruct H as (? & s2 & H2 & H).
  apply create_security_group_Ok in H2. cbn [self sys trace fs] in H2. subst s2.
  apply bind_Ok in H. destruct H as (? & s3 & H3 & H).
  apply generate_key_pair_Ok in H3. cbn [self sys trace fs] in H3.
  destruct H3 as (path & Hpath & _ & ->).
  apply bind_Ok in H. destruct H as (? & s4 & H4 & H).
  apply create_ec2_instance_Ok in H4. cbn [self sys trace fs] in H4.
  destruct H4 as (N & HN & _ & Ht & Hf & ->).
  apply bind_Ok in H. destruct H as (? & s5 & H5 & H).
  apply on_base_Ok in H5. destruct H5 as (t5 & H5 & ->).
  apply connect_Ok in H5. cbn [self sys trace fs] in H5. subst t5.
  cbn [self sys trace fs] in H.
  apply bind_Ok in H. destruct H as (? & s6 & H6 & H).
  apply on_base_Ok in H6. destruct H6 as (t6 & H6 & ->).
  apply install_cloud_dependencies_Ok in H6. cbn [self sys trace fs] in H6.
  subst t6. cbn [self sys trace fs] in H.
  apply bind_Ok in H. destruct H as (? & s7 & H7 & H).
  apply on_base_Ok in H7. destruct H7 as (t7 & H7 & ->).
  apply push_ros_workspace_Ok in H7. cbn [self sys trace fs] in H7.
  subst t7. cbn [self sys trace fs] in H.
  apply bind_Ok in H. destruct H as (? & s8 & H8 & H).
  apply AWS_info_Ok in H8. cbn [self sys trace fs] in H8.
  destruct H8 as (_ & _ & ->).
  apply bind_Ok in H. destruct H as (? & s9 & H9 & H).
  apply on_base_Ok in H9. destruct H9 as (t9 & H9 & ->).
  apply set_ready_state_Ok in H9. cbn [self sys trace fs] in H9.
  destruct H9 as (Hlock & _ & ->).
  apply ret_Ok in H. destruct H as [_ ->].
  cbn [self sys trace fs].
  exists N, path.
  split; [exact HN|]. split; [exact Hpath|]. split; [exact Hlock|].
  split; [exact Ht|]. split; [exact Hf|].
  destruct a as [[cb sc pi rw sk un wd lk rs] rg ty dk ami sg kn ei k ids].
  cbn in Hpath. subst sk.
  split; [reflexivity|].
  split; [|reflexivity].
  unfold create_actions, security_group_actions, key_pair_actions,
    instance_actions, session_actions, sync_actions, persist_actions,
    dependency_actions.
  cbn [self sys trace fs base with_base with_ready_state with_scp with_public_ip
       with_ec2_instance with_ssh_key with_ec2_security_group_ids set_addr
       created inst
       cyclone_builder scp public_ip ros_workspace ssh_key_path unique_name
       working_dir ready_lock ready_state region ec2_instance_type
       ec2_instance_disk_size aws_ami_image ec2_security_group ec2_key_name
       ec2_instance ssh_key ec2_security_group_ids
       instance_id reloads public_ip_address default from_option].
  rewrite <- !app_assoc. reflexivity.
Qed.

End CreateReturns.

(** ** Gate writes in a run *)

Lemma no_gate_write_gate_writes l : no_gate_write l = true -> gate_writes l = [].
Proof.
  unfold no_gate_write, gate_writes. induction l as [|a l IH]; simpl.
  - reflexivity.
  - destruct (is_gate_write a); simpl; [discriminate|exact IH].
Qed.

Lemma quietA_at_most_once s s' : quietA s s' -> at_most_once s s'.
Proof.
  intros [(Hi & Hr & Hl & l & Ht & Hg) Hc].
  split; [exact Hi|]. split; [exact Hc|]. split; [exact Hl|]. split.
  - simpl in Hr. intros H. rewrite Hr. exact H.
  - exists l. split; [exact Ht|]. left. apply no_gate_write_gate_writes, Hg.
Qed.

Lemma quietA_then_at_most_once s1 s2 s3 :
  quietA s1 s2 -> at_most_once s2 s3 -> at_most_once s1 s3.
Proof.
  intros [(Hi & Hr & Hl & l1 & Ht1 & Hg1) Hc]
         (Hi2 & Hc2 & Hl2 & Hm & l2 & Ht2 & Hg2).
  unfold view in *. cbn [self sys] in *.
  split; [eapply same_identity_trans; eassumption|].
  split; [eapply same_config_trans; eassumption|].
  split; [congruence|]. split.
  - simpl in Hr. intros H. apply Hm. rewrite Hr. exact H.
  - exists (l1 ++ l2). split.
    + rewrite Ht2, Ht1. symmetry. apply app_assoc.
    + unfold gate_writes in *. rewrite List.filter_app.
      fold (gate_writes l1). rewrite (no_gate_write_gate_writes l1 Hg1).
      exact Hg2.
Qed.

Lemma at_most_once_kept s s' : at_most_once s s' -> kept s s'.
Proof. intros (Hi & Hc & Hl & _). split; [exact Hi|split; [exact Hc|exact Hl]]. Qed.

Lemma kept_refl s : kept s s.
Proof.
  split; [apply same_identity_refl|]. split; [apply same_config_refl|reflexivity].
Qed.

Lemma kept_trans s1 s2 s3 : kept s1 s2 -> kept s2 s3 -> kept s1 s3.
Proof.
  intros (H1 & C1 & L1) (H2 & C2 & L2). split; [|split].
  - eapply same_identity_trans; eassumption.
  - eapply same_config_trans; eassumption.
  - congruence.
Qed.

Section Gate.

Context (W : World).

Lemma set_ready_state_final (b : bool) (s : St AWS) :
  let s' := final ((on_base (set_ready_state b) ;; ret tt) s) in
  kept s s'
  /\ ((s' = s /\ ready_lock (base (self s)) = true)
      \/ (ready_state (base (self s')) = b
          /\ trace (sys s') = trace (sys s) ++ [SetReady b])).
Proof.
  destruct s as [[[cb sc pi rw sk un wd lk rs] rg ty dk ami sg kn ei k ids] y].
  destruct lk; simpl.
  - split; [apply kept_refl|]. left. split; reflexivity.
  - split; [repeat split|]. right. split; reflexivity.
Qed.

Lemma at_most_once_set_ready :
  preserves at_most_once (on_base (set_ready_state true) ;; ret tt).
Proof.
  intros s. destruct (set_ready_state_final true s) as [(Hi & Hc & Hl) H].
  split; [exact Hi|]. split; [exact Hc|]. split; [exact Hl|].
  destruct H as [[-> _]|[Hr Ht]].
  - split; [tauto|]. exists []. split; [symmetry; apply app_nil_r|left; reflexivity].
  - split; [intros _; exact Hr|]. exists [SetReady true].
    split; [exact Ht|right; reflexivity].
Qed.

Lemma at_most_once_AWS_create fuel : preserves at_most_once (AWS_create W fuel).
Proof.
  unfold AWS_create.
  repeat (apply (preserves_bind_then quietA at_most_once at_most_once _ _
                   quietA_at_most_once quietA_then_at_most_once);
          [first [ apply quietA_emit; reflexivity
                 | apply quietA_create_security_group
                 | apply quietA_generate_key_pair
                 | apply quietA_create_ec2_instance
                 | apply quietA_AWS_info
                 | apply quietA_on_base;
                   first [ apply quiet_connect
                         | apply quiet_install_cloud_dependencies
                         | apply quiet_push_ros_workspace ] ]
          | intros _ ]).
  apply at_most_once_set_ready.
Qed.

End Gate.

Section Lifetime.

Context (W : World).

Lemma quietA_unit {A} (m : M AWS A) :
  preserves quietA m -> preserves quietA (m ;; ret tt).
Proof.
  intros Hm. apply (preserves_bind quietA quietA_trans); [exact Hm|].
  intros _. apply (preserves_ret quietA quietA_refl).
Qed.

Lemma quiet_getter {A} (f : CloudInstance -> A) :
  preserves quiet (c <- get_self ;; ret (f c)).
Proof. repeat quiet_step. Qed.

(** Every operation but [set_ready_state(False)] writes the gate at most
    once, and then with [true]. *)
Lemma quietA_get_ssh_key : preserves quietA get_ssh_key.
Proof. unfold get_ssh_key. repeat quietA_step. Qed.

Lemma invoke_quietA (m : method) :
  match m with
  | m_create _ | m_set_ready_state _ => True
  | _ => preserves quietA (invoke W m)
  end.
Proof.
  destruct m; cbn [invoke]; try exact I.
  - apply quietA_unit, quietA_AWS_info.
  - apply quietA_on_base, quiet_connect.
  - apply quietA_unit, quietA_on_base, quiet_getter.
  - apply quietA_unit, quietA_on_base, quiet_getter.
  - apply quietA_unit, quietA_on_base, quiet_getter.
  - apply quietA_unit, quietA_on_base, quiet_get_ready_state.
  - apply quietA_on_base, quiet_install_cloud_dependencies.
  - apply quietA_on_base, quiet_push_ros_workspace.
  - apply quietA_on_base, quiet_push_to_cloud_nodes.
  - apply quietA_on_base, quiet_push_and_setup_vpn.
  - apply quietA_on_base, quiet_configure_DDS.
  - apply quietA_on_base, quiet_launch_cloud_node.
  - apply quietA_unit, quietA_get_ssh_key.
  - apply quietA_create_security_group.
  - apply quietA_unit, quietA_generate_key_pair.
  - apply quietA_unit, quietA_create_ec2_instance.
Qed.

(** Every operation but [set_ready_state(False)] writes the gate at most
    once, and then with [true]. *)
Lemma invoke_at_most_once (m : method) :
  resets_gate m = false -> preserves at_most_once (invoke W m).
Proof.
  intros Hm s. pose proof (invoke_quietA m) as Hq.
  destruct m as [fuel|flush| | | | | |b| | | | | | | | | |fuel];
    try (apply quietA_at_most_once, Hq).
  - apply at_most_once_AWS_create.
  - destruct b; [|discriminate Hm]. apply at_most_once_set_ready.
Qed.

Lemma invoke_kept (m : method) : preserves kept (invoke W m).
Proof.
  intros s. destruct (resets_gate m) eqn:Hm.
  - destruct m as [| | | | | | |[|]| | | | | | | | | |]; try discriminate Hm.
    apply (set_ready_state_final false s).
  - apply at_most_once_kept, invoke_at_most_once, Hm.
Qed.

Lemma lifetime_kept (ms : list method) (s : St AWS) : kept s (lifetime W ms s).
Proof.
  revert s. induction ms as [|m ms IH]; intros s; simpl.
  - apply kept_refl.
  - eapply kept_trans; [apply invoke_kept|apply IH].
Qed.

Lemma lifetime_ready (ms : list method) (s : St AWS) :
  existsb resets_gate ms = false ->
  ready_state (base (self s)) = true ->
  ready_state (base (self (lifetime W ms s))) = true.
Proof.
  revert s. induction ms as [|m ms IH]; intros s Hms Hr; simpl.
  - exact Hr.
  - simpl in Hms. apply orb_false_elim in Hms as [Hm Hms].
    apply IH; [exact Hms|].
    destruct (invoke_at_most_once m Hm s) as (_ & _ & _ & Hmono & _).
    apply Hmono, Hr.
Qed.

End Lifetime.

(** ** Construction *)

Section Construction.

Context (W : World).

Lemma randint_Ok {T} (lo hi : Z) (s s' : St T) n :
  lo <= hi ->
  randint W lo hi s = Ok n s' -> lo <= n <= hi /\ s' = log (Randint lo hi) s.
Proof.
  intros Hle H. unfold randint in H. injection H as <- <-.
  split; [|reflexivity].
  assert (0 < hi - lo + 1) as Hpos by lia.
  pose proof (Z.mod_pos_bound (w_random W (length (trace (sys s))))
                (hi - lo + 1) Hpos) as Hb.
  lia.
Qed.

Lemma CloudInstance_init_Ok ros_workspace working_dir_base (s s' : St unit) c :
  CloudInstance_init W ros_workspace working_dir_base s = Ok c s' ->
  exists n : Z,
    10 <= n <= 1000
    /\ c = mkCloudInstance None None None ros_workspace None (str n)
             (working_dir_base +:+ "/" +:+ str n +:+ "/") false false
    /\ s' = log (Makedirs (working_dir_base +:+ "/" +:+ str n +:+ "/"))
              (log (Randint 10 1000) s).
Proof.
  unfold CloudInstance_init. intros H.
  apply bind_Ok in H. destruct H as (n & s1 & Hn & H).
  apply randint_Ok in Hn; [|lia]. destruct Hn as [Hn ->].
  inv_ok. exists n. repeat split; lia.
Qed.

Lemma AWS_fields_Ok rg ty dk ami ros_workspace working_dir_base
    (s s' : St unit) a :
  AWS_fields W rg ty dk ami ros_workspace working_dir_base s = Ok a s' ->
  exists n1 n2 : Z,
    10 <= n1 <= 1000 /\ 10 <= n2 <= 1000
    /\ let dir := working_dir_base +:+ "/" +:+ str n1 +:+ "/" in
       let name := "AWS" +:+ str n2 in
       a = mkAWS
             (mkCloudInstance None None None ros_workspace
                (Some (dir +:+ ("FogROSKEY" +:+ name) +:+ ".pem"))
                name dir false false)
             rg ty dk ami
             ("FOGROS_SECURITY_GROUP" +:+ name) ("FogROSKEY" +:+ name)
             None None None.
Proof.
  unfold AWS_fields. intros H.
  apply bind_Ok in H. destruct H as (c & s1 & Hc & H).
  apply CloudInstance_init_Ok in Hc. destruct Hc as (n1 & Hn1 & -> & ->).
  apply bind_Ok in H. destruct H as (n2 & s2 & Hn2 & H).
  apply randint_Ok in Hn2; [|lia]. destruct Hn2 as [Hn2 ->].
  inv_ok. exists n1, n2. repeat split; lia.
Qed.

End Construction.

(** ** The steps that [create] runs *)

Lemma existsb_repeat_Reload (f : action -> bool) (k : nat) :
  f Reload = false -> existsb f (repeat Reload k) = false.
Proof.
  intros Hf. induction k as [|k IH]; simpl; [reflexivity|].
  rewrite Hf, IH. reflexivity.
Qed.

Lemma create_actions_no_overlay (W : World) (a : AWS) (N : nat) :
  existsb is_overlay_or_middleware (create_actions W a N) = false.
Proof.
  unfold create_actions, instance_actions.
  rewrite !existsb_app, existsb_repeat_Reload by reflexivity.
  reflexivity.
Qed.

Lemma AWS_info_no_flush (W : World) (s : St AWS) (i : Instance) :
  ec2_instance (self s) = Some i ->
  AWS_info W false s = Ok (aws_info_dict (self s)) s.
Proof.
  destruct s as [[c rg ty dk ami sg kn ei k ids] y]. cbn [self ec2_instance].
  intros ->. reflexivity.
Qed.

(** ** Runs that raise *)

Section Raises.

Context (W : World).

Lemma AWS_create_from_sync (fuel : nat) (s s6 : St AWS) u :
  steps_before_sync W fuel s = Ok u s6 ->
  AWS_create W fuel s
  = (on_base (push_ros_workspace W) ;;
     AWS_info W true ;;
     on_base (set_ready_state true) ;;
     ret tt) s6.
Proof.
  unfold steps_before_sync, AWS_create, bind.
  destruct (emit _ s) as [? s1|? s1|s1]; try discriminate.
  destruct (create_security_group W s1) as [? s2|? s2|s2]; try discriminate.
  destruct (generate_key_pair W s2) as [? s3|? s3|s3]; try discriminate.
  destruct (create_ec2_instance W fuel s3) as [? s4|? s4|s4]; try discriminate.
  destruct (on_base (connect W) s4) as [? s5|? s5|s5]; try discriminate.
  intros ->. reflexivity.
Qed.

Lemma quietA_steps_before_sync (fuel : nat) :
  preserves quietA (steps_before_sync W fuel).
Proof.
  unfold steps_before_sync.
  apply (preserves_bind quietA quietA_trans);
    [apply quietA_emit; reflexivity|intros _].
  apply (preserves_bind quietA quietA_trans);
    [apply quietA_create_security_group|intros _].
  apply (preserves_bind quietA quietA_trans);
    [apply quietA_generate_key_pair|intros _].
  apply (preserves_bind quietA quietA_trans);
    [apply quietA_create_ec2_instance|intros _].
  apply (preserves_bind quietA quietA_trans);
    [apply quietA_on_base, quiet_connect|intros _].
  apply quietA_on_base, quiet_install_cloud_dependencies.
Qed.

Lemma runs_within_ext (a : action) : runs_within [a] (ext W a).
Proof.
  intros s. unfold ext. destruct (w_fails W _ a); cbn [final];
    (split; [reflexivity|]; split; [reflexivity|];
     exists [a]; split; [reflexivity|]; split; [reflexivity|];
     intros _; reflexivity).
Qed.

Lemma runs_within_execute_cmd cmd : runs_within [ExecuteCmd cmd] (execute_cmd W cmd).
Proof.
  intros s. unfold execute_cmd, bind, get_self. destruct (scp (self s)).
  - apply runs_within_ext.
  - cbn. split; [reflexivity|]. split; [reflexivity|].
    exists []. split; [symmetry; apply app_nil_r|].
    split; [apply prefix_nil|]. intros H. contradiction H. reflexivity.
Qed.

Lemma runs_within_send_file src dst :
  runs_within [SendFile src dst] (send_file W src dst).
Proof.
  intros s. unfold send_file, bind, get_self. destruct (scp (self s)).
  - apply runs_within_ext.
  - cbn. split; [reflexivity|]. split; [reflexivity|].
    exists []. split; [symmetry; apply app_nil_r|].
    split; [apply prefix_nil|]. intros H. contradiction H. reflexivity.
Qed.

Lemma runs_within_bind {A B} (m : M CloudInstance A) (k : A -> M CloudInstance B)
    (acts1 acts2 : list action) :
  runs_within acts1 m -> (forall a, runs_within acts2 (k a)) ->
  runs_within (acts1 ++ acts2) (bind m k).
Proof.
  intros Hm Hk s. specialize (Hm s). unfold bind.
  destruct (m s) as [a s1|e s1|s1]; cbn [final returned] in *;
    destruct Hm as (Hs & Hf & l1 & Ht & Hp & Hr).
  - specialize (Hr ltac:(discriminate)). subst l1.
    destruct (Hk a s1) as (Hs2 & Hf2 & l2 & Ht2 & Hp2 & Hr2).
    split; [congruence|]. split; [congruence|].
    exists (acts1 ++ l2). split; [rewrite Ht2, Ht; symmetry; apply app_assoc|].
    split; [apply prefix_app, Hp2|].
    intros H. rewrite (Hr2 H). reflexivity.
  - split; [exact Hs|]. split; [exact Hf|]. exists l1. split; [exact Ht|].
    split; [apply prefix_app_r, Hp|]. intros H. contradiction H. reflexivity.
  - split; [exact Hs|]. split; [exact Hf|]. exists l1. split; [exact Ht|].
    split; [apply prefix_app_r, Hp|]. intros H. contradiction H. reflexivity.
Qed.

(** Whatever its outcome, the workspace sync stops inside its actions. *)
Lemma sync_body_within (c : CloudInstance) :
  runs_within (sync_actions c)
    (ext W (MakeZip (ros_workspace c) "/tmp/ros_workspace") ;;
     execute_cmd W "echo removing old workspace" ;;
     execute_cmd W "rm -rf ros_workspace.zip ros2_ws fog_ws" ;;
     send_file W "/tmp/ros_workspace.zip" "/home/ubuntu/" ;;
     execute_cmd W "unzip -q /home/ubuntu/ros_workspace.zip" ;;
     execute_cmd W "echo successfully extracted new workspace").
Proof.
  unfold sync_actions.
  apply (runs_within_bind _ _ [_] _); [apply runs_within_ext|intros _].
  apply (runs_within_bind _ _ [_] _); [apply runs_within_execute_cmd|intros _].
  apply (runs_within_bind _ _ [_] _); [apply runs_within_execute_cmd|intros _].
  apply (runs_within_bind _ _ [_] _); [apply runs_within_send_file|intros _].
  apply (runs_within_bind _ _ [_] _); [apply runs_within_execute_cmd|intros _].
  apply runs_within_execute_cmd.
Qed.

Lemma push_ros_workspace_Raise (s s' : St CloudInstance) e :
  push_ros_workspace W s = Raise e s' ->
  self s' = self s
  /\ fs (sys s') = fs (sys s)
  /\ exists l, trace (sys s') = trace (sys s) ++ l
               /\ l `prefix_of` sync_actions (self s).
Proof.
  intros H.
  assert (self (final (push_ros_workspace W s)) = self s
          /\ fs (sys (final (push_ros_workspace W s))) = fs (sys s)
          /\ exists l,
               trace (sys (final (push_ros_workspace W s))) = trace (sys s) ++ l
               /\ l `prefix_of` sync_actions (self s)
               /\ (returned (push_ros_workspace W s) <> None
                   -> l = sync_actions (self s))) as Hw
    by exact (sync_body_within (self s) s).
  rewrite H in Hw. cbn [final] in Hw.
  destruct Hw as (Hs & Hf & l & Ht & Hp & _).
  split; [exact Hs|]. split; [exact Hf|]. exists l. split; assumption.
Qed.

End Raises.

Section Refused.

Context (W : World).

(** When the cloud refuses the security group, [create_security_group]
    raises without changing the object. *)
Lemma create_security_group_refused (s : St AWS) (e0 : exn) :
  w_fails W (1 + length (trace (sys s)))
    (CreateSecurityGroup (ec2_security_group (self s)) "DESCRIPTION" (vpc_id W))
  = Some e0 ->
  exists e s',
    create_security_group W s = Raise e s'
    /\ self s' = self s
    /\ fs (sys s') = fs (sys s)
    /\ exists l, trace (sys s') = trace (sys s) ++ l
                 /\ l `prefix_of`
                      [ DescribeVpcs;
                        CreateSecurityGroup (ec2_security_group (self s))
                          "DESCRIPTION" (vpc_id W) ].
Proof.
  destruct s as [a [t f]]. cbn [self sys trace]. intros H.
  unfold create_security_group. unfold bind at 1. unfold ext at 1.
  cbn [self sys trace fs].
  destruct (w_fails W (length t) DescribeVpcs) as [e1|].
  { do 2 eexists. split; [reflexivity|]. cbn [self sys trace fs log].
    split; [reflexivity|]. split; [reflexivity|].
    eexists. split; [reflexivity|]. eexists. reflexivity. }
  unfold bind at 1. unfold vpc_id in H |- *.
  destruct (w_vpcs W) as [[|v vs]|].
  { do 2 eexists. split; [reflexivity|]. cbn [self sys trace fs log].
    split; [reflexivity|]. split; [reflexivity|].
    eexists. split; [reflexivity|]. eexists. reflexivity. }
  all: cbn [ret log self sys trace fs]; unfold bind at 1; cbn [get_self self];
    unfold bind at 1; unfold try_except; unfold bind at 1; unfold ext at 1;
    unfold log; cbn [self sys trace fs]; rewrite length_app; cbn [length];
    replace (length t + 1)%nat with (1 + length t)%nat by lia;
    rewrite H; unfold bind at 1; rewrite load_global_ClientError;
    do 2 eexists; (split; [reflexivity|]); cbn [self sys trace fs log];
    (split; [reflexivity|]); (split; [reflexivity|]);
    rewrite <- app_assoc; eexists; (split; [reflexivity|]);
    exists []; reflexivity.
Qed.

End Refused.

(** ** The address poll *)

Section Poll.

Context (W : World).
Hypothesis reliable : instance_api_reliable W.

Lemma ext_reliable {T} (a : action) (s : St T) :
  is_instance_call a = true -> ext W a s = Ok tt (log a s).
Proof. intros Ha. unfold ext. rewrite (reliable _ a Ha). reflexivity. Qed.

Lemma poll_public_ip_returns (k : nat) :
  forall (fuel r : nat) (a0 : AWS) (y : Sys),
    (k <= fuel)%nat ->
    (forall j : nat, (r <= j < r + k)%nat ->
                     truthy (w_public_ip_address W j) = false) ->
    truthy (w_public_ip_address W (r + k)) = true ->
    poll_public_ip W fuel (inst W r) (mkSt (set_addr (inst W r) a0) y)
    = Ok (inst W (r + k))
        (mkSt (set_addr (inst W (r + k)) a0)
           (mkSys (trace y ++ repeat Reload k) (fs y))).
Proof.
  induction k as [|k IH]; intros fuel r a0 [t f] Hk Hf Ht.
  - rewrite Nat.add_0_r in *. cbn [repeat trace fs]. rewrite app_nil_r.
    destruct fuel; cbn [poll_public_ip self set_addr with_base base with_public_ip
                          public_ip inst public_ip_address];
      rewrite Ht; reflexivity.
  - destruct fuel as [|fuel]; [lia|].
    cbn [poll_public_ip self set_addr with_base base with_public_ip
           public_ip inst public_ip_address].
    rewrite (Hf r) by lia.
    unfold bind at 1. rewrite ext_reliable by reflexivity.
    unfold bind at 1. unfold modify at 1. unfold bind at 1. unfold modify at 1.
    unfold log. cbn [self sys trace fs].
    change (reloaded W (inst W r)) with (inst W (S r)).
    change (with_base _ _) with (set_addr (inst W (S r)) a0).
    rewrite (IH fuel (S r) a0); [|lia|intros j Hj; apply Hf; lia|].
    + cbn [trace fs repeat]. rewrite <- app_assoc.
      replace (S r + k)%nat with (r + S k)%nat by lia. reflexivity.
    + replace (S r + k)%nat with (r + S k)%nat by lia. exact Ht.
Qed.

Lemma poll_public_ip_hangs (fuel : nat) :
  forall (r : nat) (a0 : AWS) (y : Sys),
    (forall j : nat, (r <= j <= r + fuel)%nat ->
                     truthy (w_public_ip_address W j) = false) ->
    poll_public_ip W fuel (inst W r) (mkSt (set_addr (inst W r) a0) y)
    = Hang (mkSt (set_addr (inst W (r + fuel)) a0)
              (mkSys (trace y ++ repeat Reload fuel) (fs y))).
Proof.
  induction fuel as [|fuel IH]; intros r a0 [t f] Hf.
  - rewrite Nat.add_0_r in *. cbn [repeat trace fs]. rewrite app_nil_r.
    cbn [poll_public_ip self set_addr with_base base with_public_ip
           public_ip inst public_ip_address].
    rewrite (Hf r) by lia. reflexivity.
  - cbn [poll_public_ip self set_addr with_base base with_public_ip
           public_ip inst public_ip_address].
    rewrite (Hf r) by lia.
    unfold bind at 1. rewrite ext_reliable by reflexivity.
    unfold bind at 1. unfold modify at 1. unfold bind at 1. unfold modify at 1.
    unfold log. cbn [self sys trace fs].
    change (reloaded W (inst W r)) with (inst W (S r)).
    change (with_base _ _) with (set_addr (inst W (S r)) a0).
    rewrite (IH (S r) a0); [|intros j Hj; apply Hf; lia].
    cbn [trace fs repeat]. rewrite <- app_assoc.
    replace (S r + fuel)%nat with (r + S fuel)%nat by lia. reflexivity.
Qed.

End Poll.

Lemma count_reloads_app (l1 l2 : list action) :
  count_reloads (l1 ++ l2) = (count_reloads l1 + count_reloads l2)%nat.
Proof. unfold count_reloads. rewrite List.filter_app, length_app. reflexivity. Qed.

Lemma count_reloads_repeat (k : nat) : count_reloads (repeat Reload k) = k.
Proof.
  unfold count_reloads. induction k as [|k IH]; cbn; [reflexivity|].
  rewrite IH. reflexivity.
Qed.

Lemma count_reloads_instance_actions (W : World) (a : AWS) (N : nat) :
  (1 <= N)%nat -> count_reloads (instance_actions W a N) = N.
Proof.
  intros HN. unfold instance_actions.
  rewrite !count_reloads_app, count_reloads_repeat. cbn. lia.
Qed.

Section PollRuns.

Context (W : World).
Hypothesis reliable : instance_api_reliable W.

(** The run of [create_ec2_instance] up to the loop. *)
Lemma create_ec2_instance_unfold (fuel : nat) (a : AWS) (t : list action)
    (f : gmap string file) :
  create_ec2_instance W fuel (mkSt a (mkSys t f))
  = (instance <- poll_public_ip W fuel (inst W 1) ;;
     a <- get_self ;;
     match public_ip (base a) with
     | None => raise (TypeError "can only concatenate str (not NoneType) to str")
     | Some addr =>
         emit (LogWarn ("EC2 instance is created with ip address: " +:+ addr))
     end ;;
     ret instance)
      (mkSt (set_addr (inst W 1) a)
         (mkSys (t ++ [ CreateInstances (aws_ami_image a) (ec2_instance_type a)
                          (ec2_key_name a) (ec2_security_group_ids a)
                          (ec2_instance_disk_size a);
                        WaitUntilRunning; Reload; Print (w_instance_id W) ])
            f)).
Proof.
  unfold create_ec2_instance.
  unfold bind at 1. cbn [get_self self].
  unfold bind at 1. rewrite (ext_reliable W reliable) by reflexivity.
  unfold bind at 1. rewrite (ext_reliable W reliable) by reflexivity.
  unfold bind at 1. rewrite (ext_reliable W reliable) by reflexivity.
  unfold bind at 1. unfold modify at 1.
  unfold bind at 1. unfold emit at 1.
  unfold bind at 1. unfold modify at 1.
  unfold log. cbn [self sys trace fs].
  rewrite <- !app_assoc. reflexivity.
Qed.

Lemma create_ec2_instance_returns (fuel N : nat) (s : St AWS) :
  first_address_at W N -> (N <= S fuel)%nat ->
  create_ec2_instance W fuel s
  = Ok (inst W N)
      (mkSt (set_addr (inst W N) (self s))
         (mkSys (trace (sys s) ++ instance_actions W (self s) N) (fs (sys s)))).
Proof.
  intros (HN & Ht & Hf) Hfuel. destruct s as [a [t f]]. cbn [self sys trace fs].
  rewrite create_ec2_instance_unfold. unfold bind at 1.
  destruct N as [|k]; [lia|].
  rewrite (poll_public_ip_returns W reliable k fuel 1 a);
    [|lia|intros j Hj; apply Hf; lia|exact Ht].
  change (1 + k)%nat with (S k).
  unfold bind at 1. cbn [get_self self]. unfold bind at 1.
  cbn [set_addr with_base base public_ip with_public_ip inst public_ip_address].
  destruct (w_public_ip_address W (S k)) as [addr|] eqn:Ha;
    [|cbn in Ht; discriminate Ht].
  unfold emit, ret, log, instance_actions. cbn [self sys trace fs].
  rewrite Ha. cbn [default from_option]. rewrite Nat.sub_succ, Nat.sub_0_r.
  rewrite <- !app_assoc. reflexivity.
Qed.

Lemma create_ec2_instance_hangs (fuel : nat) (s : St AWS) :
  (forall j : nat, (1 <= j <= S fuel)%nat ->
                   truthy (w_public_ip_address W j) = false) ->
  exists s',
    create_ec2_instance W fuel s = Hang s'
    /\ count_reloads (added (trace (sys s)) (trace (sys s'))) = S fuel.
Proof.
  intros Hf. destruct s as [a [t f]]. cbn [self sys trace fs].
  rewrite create_ec2_instance_unfold. unfold bind at 1.
  rewrite (poll_public_ip_hangs W reliable fuel 1 a);
    [|intros j Hj; apply Hf; lia].
  eexists. split; [reflexivity|]. cbn [sys trace].
  rewrite <- app_assoc, added_app, count_reloads_app, count_reloads_repeat.
  reflexivity.
Qed.

End PollRuns.

(** * The claims *)

(** C1.  [RemoteMachine("10.0.0.5", "/tmp/k.pem")] never returns a record:
    its constructor reads the name [public_ip], which the module does not
    bind, and raises [NameError] right after the base constructor; so there
    is no record on which [info()] or [get_ready_state()] could be called. *)
Theorem RemoteMachine_init_raises :
  (forall (W : World) (ip ssh_key_path : string) (s : St unit),
      returned (RemoteMachine_init W ip ssh_key_path s) = None)
  /\ RemoteMachine_init calm_world "10.0.0.5" "/tmp/k.pem" boot
     = Raise (NameError "public_ip")
         (mkSt tt (mkSys [Randint 10 1000; Makedirs "/tmp/fogros//57/"] ∅)).
Proof.
  split; [|reflexivity].
  intros W ip key s. unfold RemoteMachine_init, bind.
  destruct (CloudInstance_init W _ _ s) as [c s1|e s1|s1]; reflexivity.
Qed.

(** C2, the claim as stated fails: a run of [create] that returns with the
    gate set, having performed none of the actions of the overlay, middleware
    and launch steps. *)
Lemma create_skips_overlay_middleware_launch :
  let run := AWS_create calm_world 5 (mkSt sample_aws (sys constructed)) in
  returned run = Some tt
  /\ ready_state (base (self (final run))) = true
  /\ forallb (fun a => negb (performed (trace (sys (final run))) a))
       (overlay_actions (base (self (final run)))
        ++ middleware_actions ++ launch_actions calm_world)
     = true.
Proof. vm_compute. repeat split. Qed.

(** C2, amended.  A run of [create] that returns has performed, in this
    order and nothing else: the security group, the key pair, the instance
    with its running wait and [N] address polls (backend provisioning), the
    session, the dependency installation, the workspace sync and the two
    writes of the info file, and last the gate write.  It has performed no
    action of the overlay (VPN) or middleware (DDS) steps, which [create]
    does not call, and has left the DDS builder as it was. *)
Theorem AWS_create_steps_in_order (W : World) (fuel : nat) (s s' : St AWS) u :
  AWS_create W fuel s = Ok u s' ->
  (exists N : nat,
      (1 <= N)%nat
      /\ trace (sys s')
         = trace (sys s)
           ++ [Print "creating EC2 instance"]
           ++ security_group_actions W (self s')
           ++ key_pair_actions W (self s')
           ++ instance_actions W (self s') N
           ++ session_actions (base (self s'))
           ++ dependency_actions
           ++ sync_actions (base (self s'))
           ++ persist_actions (self s')
           ++ [SetReady true])
  /\ ready_state (base (self s')) = true
  /\ cyclone_builder (base (self s')) = cyclone_builder (base (self s))
  /\ existsb is_overlay_or_middleware (added (trace (sys s)) (trace (sys s')))
     = false
  /\ forallb is_overlay_or_middleware
       (overlay_actions (base (self s')) ++ middleware_actions) = true.
Proof.
  intros H. apply AWS_create_Ok in H.
  destruct H as (N & path & HN & _ & _ & _ & _ & Hs & Ht & _).
  split; [exists N; split; [lia|exact Ht]|].
  split; [rewrite Hs; reflexivity|]. split; [rewrite Hs; reflexivity|].
  split; [|reflexivity].
  rewrite Ht, added_app. apply create_actions_no_overlay.
Qed.

(** The run of [create] in the example world. *)
Lemma AWS_create_steps_in_order_witness :
  AWS_create calm_world 5 (fresh sample_aws)
  = Ok tt (final (AWS_create calm_world 5 (fresh sample_aws)))
  /\ existsb is_overlay_or_middleware
       (added (trace (sys (fresh sample_aws)))
          (trace (sys (final (AWS_create calm_world 5 (fresh sample_aws))))))
     = false.
Proof.
  assert (AWS_create calm_world 5 (fresh sample_aws)
          = Ok tt (final (AWS_create calm_world 5 (fresh sample_aws)))) as H
    by (vm_compute; reflexivity).
  split; [exact H|].
  apply (AWS_create_steps_in_order calm_world 5 (fresh sample_aws) _ tt H).
Defined.

(** C3, the claim as stated fails: when the cloud refuses the security group
    with a [ClientError], what the constructor raises is a [NameError] for
    the name [ClientError], which names neither the failed step nor the
    cause. *)
Lemma security_group_failure_raises_NameError :
  w_fails refusing_world 7
    (CreateSecurityGroup "FOGROS_SECURITY_GROUPAWS59" "DESCRIPTION" "vpc-1")
  = Some (Foreign "ClientError" "InvalidGroup.Duplicate")
  /\ raised (AWS_init refusing_world 5 default_region default_ec2_instance_type
               default_disk_size default_ami_image "/tmp/ws" "/tmp/fogros/" boot)
     = Some (NameError "ClientError")
  /\ class_name (NameError "ClientError") <> "ProvisioningError".
Proof.
  split; [reflexivity|]. split; [vm_compute; reflexivity|]. discriminate.
Qed.

(** C3, amended.  When the creation of the security group fails, [create]
    raises and goes no further: the object is unchanged (no security group id
    is set, the gate keeps its value), no file is written, and the trace ends
    at the latest with the refused call, so no key pair and no instance is
    requested with an id that was never set. *)
Theorem security_group_failure_aborts_create (W : World) (fuel : nat)
    (s : St AWS) (e0 : exn) :
  w_fails W (2 + length (trace (sys s)))
    (CreateSecurityGroup (ec2_security_group (self s)) "DESCRIPTION" (vpc_id W))
  = Some e0 ->
  exists e s',
    AWS_create W fuel s = Raise e s'
    /\ self s' = self s
    /\ fs (sys s') = fs (sys s)
    /\ exists l, trace (sys s') = trace (sys s) ++ l
                 /\ l `prefix_of`
                      [ Print "creating EC2 instance";
                        DescribeVpcs;
                        CreateSecurityGroup (ec2_security_group (self s))
                          "DESCRIPTION" (vpc_id W) ].
Proof.
  intros H.
  destruct (create_security_group_refused W
              (log (Print "creating EC2 instance") s) e0)
    as (e & s' & Hr & Hs & Hf & l & Ht & k & Hk).
  { rewrite trace_log, length_app. cbn [length self log].
    replace (1 + (length (trace (sys s)) + 1))%nat
      with (2 + length (trace (sys s)))%nat by lia.
    exact H. }
  exists e, s'. split.
  { unfold AWS_create. unfold bind at 1. unfold emit.
    unfold bind at 1. rewrite Hr. reflexivity. }
  split; [exact Hs|]. split; [exact Hf|].
  exists (Print "creating EC2 instance" :: l). split.
  - rewrite Ht, trace_log, <- app_assoc. reflexivity.
  - exists k. cbn [self log] in Hk. cbn [app]. f_equal. exact Hk.
Qed.

(** The run of [create] in the world that refuses the security group. *)
Lemma security_group_failure_aborts_create_witness :
  w_fails refusing_world (2 + length (trace (sys (mkSt sample_aws (sys constructed)))))
    (CreateSecurityGroup (ec2_security_group sample_aws) "DESCRIPTION"
       (vpc_id refusing_world))
  = Some (Foreign "ClientError" "InvalidGroup.Duplicate")
  /\ exists e s',
       AWS_create refusing_world 5 (mkSt sample_aws (sys constructed))
       = Raise e s'
       /\ self s' = sample_aws.
Proof.
  split; [reflexivity|].
  destruct (security_group_failure_aborts_create refusing_world 5
              (mkSt sample_aws (sys constructed))
              (Foreign "ClientError" "InvalidGroup.Duplicate") eq_refl)
    as (e & s' & Hr & Hs & _).
  exists e, s'. split; [exact Hr|exact Hs].
Defined.

(** C4, the claim as stated fails: the base constructor names the record
    "57", the constructor of [AWS] then renames it "AWS59", and the working
    directory keeps the first name. *)
Lemma unique_name_assigned_twice :
  unique_name
    <$> returned (CloudInstance_init calm_world "/tmp/ws" "/tmp/fogros/" boot)
  = Some "57"
  /\ AWS_fields calm_world default_region default_ec2_instance_type
       default_disk_size default_ami_image "/tmp/ws" "/tmp/fogros/" boot
     = Ok sample_aws constructed
  /\ unique_name (base sample_aws) = "AWS59"
  /\ working_dir (base sample_aws) = "/tmp/fogros//57/"
  /\ working_dir (base sample_aws)
     <> "/tmp/fogros/" +:+ "/" +:+ unique_name (base sample_aws) +:+ "/".
Proof.
  split; [vm_compute; reflexivity|]. split; [vm_compute; reflexivity|].
  repeat split. discriminate.
Qed.

(** C4, amended.  A constructed [AWS] record has the name "AWS<n2>" for the
    subclass's draw [n2], which replaces the base constructor's name "<n1>";
    its working directory is derived from the first name, its security group
    and key pair names from the final one, its key path from both.  From
    then on no operation, in any sequence and whether it returns or raises,
    changes the name, the working directory, the key path or the resource
    names. *)
Theorem unique_name_fixed_after_construction (W : World)
    (rg ty : string) (dk : Z) (ami ros_workspace working_dir_base : string)
    (s s' : St unit) (a : AWS) (ms : list method) (y : Sys) :
  AWS_fields W rg ty dk ami ros_workspace working_dir_base s = Ok a s' ->
  (exists n1 n2 : Z,
      10 <= n1 <= 1000 /\ 10 <= n2 <= 1000
      /\ working_dir (base a) = working_dir_base +:+ "/" +:+ str n1 +:+ "/"
      /\ unique_name (base a) = "AWS" +:+ str n2)
  /\ ec2_security_group a = "FOGROS_SECURITY_GROUP" +:+ unique_name (base a)
  /\ ec2_key_name a = "FogROSKEY" +:+ unique_name (base a)
  /\ ssh_key_path (base a)
     = Some (working_dir (base a) +:+ ec2_key_name a +:+ ".pem")
  /\ let a' := self (lifetime W ms (mkSt a y)) in
     unique_name (base a') = unique_name (base a)
     /\ working_dir (base a') = working_dir (base a)
     /\ ssh_key_path (base a') = ssh_key_path (base a)
     /\ ec2_security_group a' = ec2_security_group a
     /\ ec2_key_name a' = ec2_key_name a.
Proof.
  intros H. apply AWS_fields_Ok in H.
  destruct H as (n1 & n2 & Hn1 & Hn2 & Ha). cbv zeta in Ha.
  split; [exists n1, n2; subst a; repeat split; lia|].
  do 3 (split; [subst a; reflexivity|]).
  destruct (lifetime_kept W ms (mkSt a y))
    as ((Hn & Hd & _ & Hk) & (_ & _ & _ & _ & Hg & Hkn) & _).
  cbn [self] in *. repeat split; assumption.
Qed.

(** The record built in the example world, then created, reset and
    configured. *)
Lemma unique_name_fixed_after_construction_witness :
  AWS_fields calm_world default_region default_ec2_instance_type
    default_disk_size default_ami_image "/tmp/ws" "/tmp/fogros/" boot
  = Ok sample_aws constructed
  /\ unique_name
       (base (self (lifetime calm_world
                      [m_create 5; m_set_ready_state false; m_configure_DDS]
                      (mkSt sample_aws (sys constructed)))))
     = unique_name (base sample_aws).
Proof.
  assert (AWS_fields calm_world default_region default_ec2_instance_type
            default_disk_size default_ami_image "/tmp/ws" "/tmp/fogros/" boot
          = Ok sample_aws constructed) as H by (vm_compute; reflexivity).
  split; [exact H|].
  apply (unique_name_fixed_after_construction calm_world default_region
           default_ec2_instance_type default_disk_size default_ami_image
           "/tmp/ws" "/tmp/fogros/" boot constructed sample_aws
           [m_create 5; m_set_ready_state false; m_configure_DDS]
           (sys constructed) H).
Defined.

(** C5.  When the workspace sync raises [e] after the earlier steps have
    succeeded, [create] raises that same [e]; the trace stops inside the
    actions of the sync, so nothing later is performed: no overlay or
    middleware action, no write of the info file by a later step, no gate
    write; the gate keeps its value, and a gate that was false with a free
    lock still reads false. *)
Theorem sync_failure_aborts_create (W : World) (fuel : nat)
    (s s6 s7 : St AWS) (e : exn) :
  steps_before_sync W fuel s = Ok tt s6 ->
  on_base (push_ros_workspace W) s6 = Raise e s7 ->
  AWS_create W fuel s = Raise e s7
  /\ (exists l, trace (sys s7) = trace (sys s6) ++ l
                /\ l `prefix_of` sync_actions (base (self s6)))
  /\ gate_writes (added (trace (sys s)) (trace (sys s7))) = []
  /\ existsb is_overlay_or_middleware
       (added (trace (sys s6)) (trace (sys s7))) = false
  /\ ready_state (base (self s7)) = ready_state (base (self s))
  /\ (ready_state (base (self s)) = false ->
      ready_lock (base (self s)) = false ->
      returned (on_base get_ready_state s7) = Some false).
Proof.
  intros H6 H7.
  split.
  { rewrite (AWS_create_from_sync W fuel s s6 tt H6).
    unfold bind. rewrite H7. reflexivity. }
  pose proof (quietA_steps_before_sync W fuel s) as Hq. rewrite H6 in Hq.
  cbn [final] in Hq.
  destruct Hq as [(_ & Hr6 & Hl6 & l0 & Ht6 & Hg0) _].
  unfold view in *. cbn [self sys] in *.
  unfold on_base, lift in H7.
  destruct (push_ros_workspace W _) as [? t7|e7 t7|t7] eqn:Hp;
    try discriminate H7.
  injection H7 as -> <-.
  apply push_ros_workspace_Raise in Hp. cbn [self sys] in Hp.
  destruct Hp as (Hself & _ & l & Ht & Hpre).
  cbn [self sys]. rewrite Hself.
  assert (with_base (base (self s6)) (self s6) = self s6) as Hb
    by (destruct (self s6); reflexivity).
  rewrite Hb.
  split; [exists l; repeat split; assumption|].
  assert (no_gate_write l = true /\ existsb is_overlay_or_middleware l = false)
    as [Hgl Hol].
  { destruct Hpre as [k Hk]. split.
    - assert (no_gate_write (l ++ k) = true) as Hn by (rewrite <- Hk; reflexivity).
      unfold no_gate_write in *. rewrite forallb_app in Hn.
      apply andb_prop in Hn. tauto.
    - assert (existsb is_overlay_or_middleware (l ++ k) = false) as Hn
        by (rewrite <- Hk; reflexivity).
      rewrite existsb_app in Hn. apply orb_false_elim in Hn. tauto. }
  split.
  { rewrite Ht, Ht6, <- app_assoc, added_app.
    apply no_gate_write_gate_writes. unfold no_gate_write in *.
    rewrite forallb_app, Hg0, Hgl. reflexivity. }
  split; [rewrite Ht, added_app; exact Hol|].
  split; [exact Hr6|].
  intros Hr Hl.
  destruct s6 as [[c6 rg ty dk ami sg kn ei k ids] [t6 f6]].
  cbn [self sys base trace fs] in *.
  unfold on_base, lift. cbn [self sys base].
  rewrite get_ready_state_free by (cbn [self]; congruence).
  cbn [returned self]. congruence.
Qed.

(** The run of [create] in the world where the remote unzip fails. *)
Lemma sync_failure_aborts_create_witness :
  let s := fresh sample_aws in
  let s6 := final (steps_before_sync unzip_failing_world 5 s) in
  let s7 := final (on_base (push_ros_workspace unzip_failing_world) s6) in
  let e := Foreign "RemoteExecutionError" "exit status 9" in
  steps_before_sync unzip_failing_world 5 s = Ok tt s6
  /\ on_base (push_ros_workspace unzip_failing_world) s6 = Raise e s7
  /\ AWS_create unzip_failing_world 5 s = Raise e s7.
Proof.
  intros s s6 s7 e.
  assert (steps_before_sync unzip_failing_world 5 s = Ok tt s6) as H6
    by (vm_compute; reflexivity).
  assert (on_base (push_ros_workspace unzip_failing_world) s6 = Raise e s7)
    as H7 by (vm_compute; reflexivity).
  split; [exact H6|]. split; [exact H7|].
  apply (sync_failure_aborts_create unzip_failing_world 5 s s6 s7 e H6 H7).
Defined.

(** C6.  Within one run of [create] the gate is written at most once, and
    then with [true], and a gate that is true stays true; after
    [set_ready_state(True)] any number of [get_ready_state()] calls all
    return true; and no sequence of operations other than
    [set_ready_state(False)] turns a true gate false. *)
Theorem ready_state_never_reset (W : World) (fuel : nat) (s : St AWS)
    (c : St CloudInstance) (ms : list method) (n : nat) :
  ready_lock (self c) = false ->
  existsb resets_gate ms = false ->
  (exists l, trace (sys (final (AWS_create W fuel s))) = trace (sys s) ++ l
             /\ (gate_writes l = [] \/ gate_writes l = [SetReady true]))
  /\ (ready_state (base (self s)) = true ->
      ready_state (base (self (final (AWS_create W fuel s)))) = true)
  /\ (exists c1, set_ready_state true c = Ok true c1
                 /\ get_ready_state_times n c1 = Ok (repeat true n) c1)
  /\ (ready_state (base (self s)) = true ->
      ready_lock (base (self s)) = false ->
      ready_state (base (self (lifetime W ms s))) = true
      /\ returned (on_base get_ready_state (lifetime W ms s)) = Some true).
Proof.
  intros Hl Hms.
  destruct (at_most_once_AWS_create W fuel s)
    as (_ & _ & _ & Hmono & l & Ht & Hg).
  split; [exists l; split; assumption|]. split; [exact Hmono|]. split.
  - eexists. split; [apply (set_ready_state_free true c Hl)|].
    apply (get_ready_state_times_free n). exact Hl.
  - intros Hr Hfree.
    pose proof (lifetime_ready W ms s Hms Hr) as Hr'.
    destruct (lifetime_kept W ms s) as (_ & _ & Hl').
    split; [exact Hr'|].
    destruct (lifetime W ms s) as [a' y']. cbn [self] in *.
    unfold on_base, lift. cbn [self sys].
    rewrite get_ready_state_free by (cbn [self]; congruence).
    cbn [returned self]. congruence.
Qed.

(** Three reads of the gate of the example record after it is set. *)
Lemma ready_state_never_reset_witness :
  ready_lock (self (fresh sample_record)) = false
  /\ existsb resets_gate [m_get_ready_state; m_info false; m_connect] = false
  /\ exists c1, set_ready_state true (fresh sample_record) = Ok true c1
                /\ get_ready_state_times 3 c1 = Ok [true; true; true] c1.
Proof.
  split; [reflexivity|]. split; [reflexivity|].
  apply (ready_state_never_reset calm_world 5 (fresh sample_aws)
           (fresh sample_record) [m_get_ready_state; m_info false; m_connect] 3);
    reflexivity.
Defined.




(** C8, the claim as stated fails: the address is non-null on the first
    reload, but empty, and the loop reloads a second time. *)
Lemma empty_address_is_polled_again :
  w_public_ip_address blank_address_world 1 = Some ""
  /\ reloads
     <$> returned (create_ec2_instance blank_address_world 5 (fresh sample_aws))
     = Some 2%nat
  /\ count_reloads
       (trace (sys (final (create_ec2_instance blank_address_world 5
                             (fresh sample_aws)))))
     = 2%nat.
Proof. vm_compute. repeat split. Qed.

(** C8, amended.  In a world whose instance calls do not fail: when the
    address first is true (non-null and non-empty) on the [N]-th reload,
    [create_ec2_instance] returns after exactly [N] reloads, all of them
    after the running wait, with that address stored; a run that returns has
    always stopped at the first such reload; and while the address stays
    false the loop goes on, whatever the fuel: it has no bound of its own. *)
Theorem create_ec2_instance_polls (W : World) (fuel N : nat) (s : St AWS) :
  instance_api_reliable W ->
  (first_address_at W N -> (N <= S fuel)%nat ->
   exists s',
     create_ec2_instance W fuel s = Ok (inst W N) s'
     /\ trace (sys s') = trace (sys s) ++ instance_actions W (self s) N
     /\ count_reloads (instance_actions W (self s) N) = N
     /\ public_ip (base (self s')) = w_public_ip_address W N
     /\ ec2_instance (self s') = Some (inst W N))
  /\ (forall i s',
        create_ec2_instance W fuel s = Ok i s' ->
        exists M : nat,
          first_address_at W M /\ i = inst W M
          /\ trace (sys s') = trace (sys s) ++ instance_actions W (self s) M)
  /\ ((forall j : nat, (1 <= j <= S fuel)%nat ->
                       truthy (w_public_ip_address W j) = false) ->
      exists s',
        create_ec2_instance W fuel s = Hang s'
        /\ count_reloads (added (trace (sys s)) (trace (sys s'))) = S fuel).
Proof.
  intros Hrel. split; [|split].
  - intros HN Hfuel. eexists.
    split; [apply (create_ec2_instance_returns W Hrel fuel N s HN Hfuel)|].
    cbn [self sys trace]. split; [reflexivity|].
    split; [apply count_reloads_instance_actions, HN|].
    split; reflexivity.
  - intros i s' H. apply create_ec2_instance_Ok in H.
    destruct H as (M & HM & -> & Ht & Hf & ->).
    exists M. split; [repeat split; [lia|exact Ht|exact Hf]|].
    split; reflexivity.
  - apply (create_ec2_instance_hangs W Hrel).
Qed.

(** In the example world the address shows up on the third reload. *)
Lemma create_ec2_instance_polls_witness :
  instance_api_reliable calm_world
  /\ first_address_at calm_world 3
  /\ (3 <= S 5)%nat
  /\ exists s',
       create_ec2_instance calm_world 5 (fresh sample_aws)
       = Ok (inst calm_world 3) s'
       /\ count_reloads (instance_actions calm_world sample_aws 3) = 3%nat.
Proof.
  assert (instance_api_reliable calm_world) as Hrel
    by (intros t a _; reflexivity).
  assert (first_address_at calm_world 3) as HN.
  { split; [lia|]. split; [reflexivity|].
    intros j Hj. assert (j = 1 \/ j = 2)%nat as [-> | ->] by lia; reflexivity. }
  split; [exact Hrel|]. split; [exact HN|]. split; [lia|].
  destruct (proj1 (create_ec2_instance_polls calm_world 5 3 (fresh sample_aws)
                     Hrel) HN ltac:(lia))
    as (s' & Hr & _ & Hc & _).
  exists s'. split; [exact Hr|exact Hc].
Defined.

(** C9.  The constructor of [AWS] ends with [create()]: every record it
    returns is one on which [create] has run to its end, with the whole
    pipeline performed and the gate set; and when [create] raises or hangs on
    the record under construction, so does the constructor, and no record is
    returned. *)
Theorem AWS_init_runs_create (W : World) (fuel : nat)
    (rg ty : string) (dk : Z) (ami ros_workspace working_dir_base : string)
    (s : St unit) :
  let init := AWS_init W fuel rg ty dk ami ros_workspace working_dir_base s in
  let fields := AWS_fields W rg ty dk ami ros_workspace working_dir_base s in
  (forall a s', init = Ok a s' ->
      exists a0 s0 (N : nat),
        fields = Ok a0 s0
        /\ AWS_create W fuel (mkSt a0 (sys s0)) = Ok tt (mkSt a (sys s'))
        /\ trace (sys s') = trace (sys s0) ++ create_actions W a N
        /\ ready_state (base a) = true)
  /\ (forall a0 s0, fields = Ok a0 s0 ->
        let run := AWS_create W fuel (mkSt a0 (sys s0)) in
        (returned run = None -> returned init = None)
        /\ raised init = raised run
        /\ sys (final init) = sys (final run))
  /\ (returned fields = None -> returned init = None).
Proof.
  intros init fields. subst init fields. unfold AWS_init, bind.
  destruct (AWS_fields W rg ty dk ami ros_workspace working_dir_base s)
    as [a0 [[] y0]|e0 s0|s0] eqn:Hf.
  - unfold construct. cbn [sys].
    destruct (AWS_create W fuel (mkSt a0 y0)) as [[] [a1 y1]|e s1|s1] eqn:Hrun.
    + split; [|split].
      * intros a s' H. injection H as <- <-. cbn [self sys].
        destruct (AWS_create_Ok W fuel _ _ _ Hrun)
          as (N & path & _ & _ & _ & _ & _ & Hs & Ht & _).
        cbn [self sys] in *.
        exists a0, (mkSt tt y0), N. split; [reflexivity|].
        split; [exact Hrun|]. split; [exact Ht|].
        rewrite Hs. reflexivity.
      * intros a0' s0' H. injection H as <- <-. cbn [sys]. rewrite Hrun.
        split; [discriminate|]. split; reflexivity.
      * discriminate.
    + split; [|split].
      * discriminate.
      * intros a0' s0' H. injection H as <- <-. cbn [sys]. rewrite Hrun.
        split; [reflexivity|]. split; reflexivity.
      * discriminate.
    + split; [|split].
      * discriminate.
      * intros a0' s0' H. injection H as <- <-. cbn [sys]. rewrite Hrun.
        split; [reflexivity|]. split; reflexivity.
      * discriminate.
  - split; [discriminate|]. split; [discriminate|reflexivity].
  - split; [discriminate|]. split; [discriminate|reflexivity].
Qed.

(** In the example world the constructor returns the record that [create]
    has completed. *)
Lemma AWS_init_runs_create_witness :
  let init :=
    AWS_init calm_world 5 default_region default_ec2_instance_type
      default_disk_size default_ami_image "/tmp/ws" "/tmp/fogros/" boot in
  init = Ok (created calm_world 3 sample_aws) (final init)
  /\ exists a0 s0 (N : nat),
       AWS_fields calm_world default_region default_ec2_instance_type
         default_disk_size default_ami_image "/tmp/ws" "/tmp/fogros/" boot
       = Ok a0 s0
       /\ AWS_create calm_world 5 (mkSt a0 (sys s0))
          = Ok tt (mkSt (created calm_world 3 sample_aws) (sys (final init)))
       /\ trace (sys (final init))
          = trace (sys s0)
            ++ create_actions calm_world (created calm_world 3 sample_aws) N
       /\ ready_state (base (created calm_world 3 sample_aws)) = true.
Proof.
  intros init.
  assert (init = Ok (created calm_world 3 sample_aws) (final init)) as H
    by (vm_compute; reflexivity).
  split; [exact H|].
  exact (proj1 (AWS_init_runs_create calm_world 5 default_region
                  default_ec2_instance_type default_disk_size
                  default_ami_image "/tmp/ws" "/tmp/fogros/" boot)
           (created calm_world 3 sample_aws) (final init) H).
Defined.

(** C10.  For every boolean [b], [set_ready_state(b)] returns [b] and a
    [get_ready_state()] right after it returns [b]; the gate does not enforce
    monotonicity: [set_ready_state(False)] after [set_ready_state(True)]
    resets it, and the next [get_ready_state()] returns false.  (The lock is
    free when the calls are made.) *)
Theorem set_ready_state_then_get (b : bool) (s : St CloudInstance) :
  ready_lock (self s) = false ->
  (exists s1, set_ready_state b s = Ok b s1 /\ get_ready_state s1 = Ok b s1)
  /\ (exists s2 s3,
         set_ready_state true s = Ok true s2
         /\ set_ready_state false s2 = Ok false s3
         /\ get_ready_state s3 = Ok false s3).
Proof.
  intros Hl. split.
  - eexists. split; [apply (set_ready_state_free b s Hl)|].
    apply get_ready_state_free. exact Hl.
  - do 2 eexists. split; [apply (set_ready_state_free true s Hl)|].
    split; [apply set_ready_state_free; exact Hl|].
    apply get_ready_state_free. exact Hl.
Qed.

(** The gate of the example record, set and read. *)
Lemma set_ready_state_then_get_witness :
  ready_lock (self (fresh sample_record)) = false
  /\ (exists s1, set_ready_state true (fresh sample_record) = Ok true s1
                 /\ get_ready_state s1 = Ok true s1).
Proof.
  split; [reflexivity|].
  apply (set_ready_state_then_get true (fresh sample_record)). reflexivity.
Defined.

(** * Further properties of the code *)

(** ** The session and the remote steps *)

Section Session.

Context (W : World).

Lemma execute_cmd_no_session cmd (s : St CloudInstance) :
  scp (self s) = None ->
  execute_cmd W cmd s = Raise (AttributeError "execute_cmd") s.
Proof. intros H. unfold execute_cmd, bind, get_self. rewrite H. reflexivity. Qed.

Lemma send_file_no_session src dst (s : St CloudInstance) :
  scp (self s) = None ->
  send_file W src dst s = Raise (AttributeError "send_file") s.
Proof. intros H. unfold send_file, bind, get_self. rewrite H. reflexivity. Qed.

Lemma execute_cmd_session cmd (s : St CloudInstance) :
  scp (self s) <> None -> execute_cmd W cmd s = ext W (ExecuteCmd cmd) s.
Proof.
  intros H. unfold execute_cmd, bind, get_self.
  destruct (scp (self s)); [reflexivity|contradiction H; reflexivity].
Qed.

Lemma send_file_session src dst (s : St CloudInstance) :
  scp (self s) <> None -> send_file W src dst s = ext W (SendFile src dst) s.
Proof.
  intros H. unfold send_file, bind, get_self.
  destruct (scp (self s)); [reflexivity|contradiction H; reflexivity].
Qed.

Lemma final_ext_trace {T} (a : action) (s : St T) :
  final (ext W a s) = log a s.
Proof. unfold ext. destruct (w_fails W _ a); reflexivity. Qed.

Lemma returned_raise_none {T A} (e : exn) (s : St T) :
  returned (@Raise T A e s) = None.
Proof. reflexivity. Qed.

End Session.

Lemma added_same (l : list action) : added l l = [].
Proof. unfold added. apply drop_all. Qed.

(** X1.  Without a session ([self.scp] is [None]) no remote command is run
    and no file is sent: the dependency installation and the two pushes raise
    [AttributeError] at once and change nothing; the workspace sync still
    zips the workspace locally, and [configure_DDS] still sets the builder
    and generates the configuration file, before they fail; and
    [launch_cloud_node] at most prints its command. *)
Theorem no_session_no_remote_call (W : World) (s : St CloudInstance) :
  scp (self s) = None ->
  install_cloud_dependencies W s = Raise (AttributeError "execute_cmd") s
  /\ push_to_cloud_nodes W s = Raise (AttributeError "send_file") s
  /\ push_and_setup_vpn W s = Raise (AttributeError "send_file") s
  /\ (exists e,
        push_ros_workspace W s
        = Raise e (log (MakeZip (ros_workspace (self s)) "/tmp/ros_workspace") s))
  /\ (exists e,
        configure_DDS W s
        = Raise e
            (log (GenerateConfigFile ["10.0.0.1"])
               (mkSt (with_cyclone_builder (Some ["10.0.0.1"]) (self s))
                  (sys s))))
  /\ (exists e s',
        launch_cloud_node W s = Raise e s'
        /\ existsb is_remote_call (added (trace (sys s)) (trace (sys s')))
           = false).
Proof.
  intros H.
  split.
  { unfold install_cloud_dependencies. unfold bind at 1.
    rewrite execute_cmd_no_session by exact H. reflexivity. }
  split.
  { unfold push_to_cloud_nodes. unfold bind at 1. cbn [get_self].
    rewrite send_file_no_session by exact H. reflexivity. }
  split.
  { unfold push_and_setup_vpn. unfold bind at 1. cbn [get_self].
    unfold bind at 1. rewrite send_file_no_session by exact H. reflexivity. }
  split.
  { unfold push_ros_workspace. unfold bind at 1. cbn [get_self].
    unfold bind at 1. unfold ext at 1.
    destruct (w_fails W _ _) as [e|]; [exists e; reflexivity|].
    unfold bind at 1. rewrite execute_cmd_no_session by exact H.
    eexists. reflexivity. }
  split.
  { unfold configure_DDS. unfold bind at 1. cbn [modify].
    unfold bind at 1. unfold ext at 1. cbn [self sys trace].
    destruct (w_fails W _ _) as [e|]; [exists e; reflexivity|].
    rewrite send_file_no_session by exact H. eexists. reflexivity. }
  unfold launch_cloud_node. unfold bind at 1. cbn [get_self].
  destruct (cyclone_builder (self s)).
  - unfold bind at 1. cbn [emit].
    rewrite execute_cmd_no_session by exact H.
    do 2 eexists. split; [reflexivity|].
    rewrite trace_log, added_app. reflexivity.
  - do 2 eexists. split; [reflexivity|]. rewrite added_same. reflexivity.
Qed.

(** A record that has not been connected. *)
Lemma no_session_no_remote_call_witness :
  scp (self (fresh sample_record)) = None
  /\ install_cloud_dependencies calm_world (fresh sample_record)
     = Raise (AttributeError "execute_cmd") (fresh sample_record).
Proof.
  split; [reflexivity|].
  apply (no_session_no_remote_call calm_world (fresh sample_record)).
  reflexivity.
Defined.

(** X2.  [launch_cloud_node] needs [configure_DDS]: on a record whose DDS
    builder is unset it raises [AttributeError] before printing or running
    anything.  [configure_DDS] sets the builder first, so after it, even when
    it has raised, [launch_cloud_node] gets as far as printing its command. *)
Theorem launch_cloud_node_needs_configure_DDS (W : World)
    (s : St CloudInstance) :
  cyclone_builder (self s) = None ->
  launch_cloud_node W s = Raise (AttributeError "env_cmd") s
  /\ cyclone_builder (self (final (configure_DDS W s))) = Some ["10.0.0.1"]
  /\ exists l,
       trace (sys (final (launch_cloud_node W (final (configure_DDS W s)))))
       = trace (sys (final (configure_DDS W s))) ++ Print (launch_command W) :: l.
Proof.
  intros H.
  split.
  { unfold launch_cloud_node. unfold bind at 1. cbn [get_self].
    rewrite H. reflexivity. }
  assert (cyclone_builder (self (final (configure_DDS W s))) = Some ["10.0.0.1"])
    as Hb.
  { pose proof (runs_within_bind
                  (ext W (GenerateConfigFile ["10.0.0.1"]))
                  (fun _ => send_file W "/tmp/cyclonedds.xml" "~/cyclonedds.xml")
                  [GenerateConfigFile ["10.0.0.1"]]
                  [SendFile "/tmp/cyclonedds.xml" "~/cyclonedds.xml"]
                  (runs_within_ext W _)
                  (fun _ => runs_within_send_file W _ _)
                  (mkSt (with_cyclone_builder (Some ["10.0.0.1"]) (self s))
                     (sys s))) as (Hs & _).
    change (self (final (configure_DDS W s))
            = with_cyclone_builder (Some ["10.0.0.1"]) (self s)) in Hs.
    rewrite Hs. reflexivity. }
  split; [exact Hb|].
  set (s1 := final (configure_DDS W s)) in *.
  unfold launch_cloud_node. unfold bind at 1. cbn [get_self]. rewrite Hb.
  unfold bind at 1. cbn [emit].
  destruct (runs_within_execute_cmd W (launch_command W)
              (log (Print (launch_command W)) s1)) as (_ & _ & l & Ht & _).
  exists l. unfold launch_command in *. rewrite Ht, trace_log, <- app_assoc.
  reflexivity.
Qed.

(** A record that has never been configured. *)
Lemma launch_cloud_node_needs_configure_DDS_witness :
  cyclone_builder (self (fresh connected_record)) = None
  /\ launch_cloud_node calm_world (fresh connected_record)
     = Raise (AttributeError "env_cmd") (fresh connected_record).
Proof.
  split; [reflexivity|].
  apply (launch_cloud_node_needs_configure_DDS calm_world
           (fresh connected_record)).
  reflexivity.
Defined.

(** X3.  [connect] stores the SCP client, built from the record's address
    and key path as they are, before it connects: whether connecting returns
    or raises, the record then has a client, exactly one connection has been
    attempted, and a later command is handed to that client instead of being
    refused for want of a session. *)
Theorem connect_keeps_the_client (W : World) (s : St CloudInstance)
    (cmd : string) :
  let s' := final (connect W s) in
  self s'
  = with_scp (Some (mkSCP (public_ip (self s)) (ssh_key_path (self s)))) (self s)
  /\ trace (sys s')
     = trace (sys s) ++ [ScpConnect (public_ip (self s)) (ssh_key_path (self s))]
  /\ fs (sys s') = fs (sys s)
  /\ final (execute_cmd W cmd s') = log (ExecuteCmd cmd) s'.
Proof.
  intros s'. subst s'.
  assert (final (connect W s)
          = log (ScpConnect (public_ip (self s)) (ssh_key_path (self s)))
              (mkSt (with_scp (Some (mkSCP (public_ip (self s))
                                       (ssh_key_path (self s)))) (self s))
                 (sys s))) as ->.
  { unfold connect. unfold bind at 1. cbn [get_self]. unfold bind at 1.
    cbn [modify]. apply final_ext_trace. }
  split; [reflexivity|]. split; [reflexivity|]. split; [reflexivity|].
  rewrite execute_cmd_session by (cbn; discriminate).
  apply final_ext_trace.
Qed.

Section FailFast.

Context (W : World).

Lemma fails_fast_install_cloud_dependencies :
  fails_fast (fun _ => dependency_actions) (install_cloud_dependencies W).
Proof.
  intros s. unfold install_cloud_dependencies, dependency_actions.
  apply (runs_within_bind _ _ [_] [_]);
    [apply runs_within_execute_cmd|intros _; apply runs_within_execute_cmd].
Qed.

Lemma fails_fast_push_ros_workspace :
  fails_fast sync_actions (push_ros_workspace W).
Proof. intros s. exact (sync_body_within W (self s) s). Qed.

Lemma fails_fast_push_and_setup_vpn :
  fails_fast overlay_actions (push_and_setup_vpn W).
Proof.
  intros s.
  exact (runs_within_bind _ _ [_] [_]
           (runs_within_send_file W _ _)
           (fun _ => runs_within_execute_cmd W _) s).
Qed.

Lemma fails_fast_push_to_cloud_nodes :
  fails_fast
    (fun c => [SendFile ("/tmp/to_cloud_" +:+ unique_name c) "/tmp/to_cloud_nodes"])
    (push_to_cloud_nodes W).
Proof. intros s. exact (runs_within_send_file W _ _ s). Qed.

End FailFast.


(** ** The info file and the key file *)

(** X5.  [AWS.info] on a record that has no instance yet raises
    [AttributeError]; asked to flush, it has by then already written the
    file, with the five keys of the base class only. *)
Theorem AWS_info_without_instance (W : World) (s : St AWS) :
  ec2_instance (self s) = None ->
  AWS_info W false s = Raise (AttributeError "instance_id") s
  /\ (w_fails W (length (trace (sys s)))
        (WriteFile (info_path (base (self s)))
           (FJson (info_dict (base (self s)))))
      = None ->
      exists s',
        AWS_info W true s = Raise (AttributeError "instance_id") s'
        /\ self s' = self s
        /\ fs (sys s') !! info_path (base (self s))
           = Some (FJson (info_dict (base (self s))))
        /\ trace (sys s')
           = trace (sys s)
             ++ [WriteFile (info_path (base (self s)))
                   (FJson (info_dict (base (self s))))]).
Proof.
  destruct s as [[c rg ty dk ami sg kn ei k ids] [t f]].
  cbn [self sys trace fs ec2_instance base]. intros ->.
  split; [reflexivity|].
  intros Hw. eexists.
  unfold AWS_info. unfold bind at 1. unfold on_base, lift, info.
  cbn [self sys base]. unfold bind at 1. cbn [get_self self].
  unfold bind at 1. unfold write_file. unfold bind at 1. unfold ext at 1.
  cbn [self sys trace fs]. unfold info_path in Hw. rewrite Hw.
  cbn [ret bind get_self self with_base ec2_instance raise].
  split; [reflexivity|]. cbn [self sys trace fs stored log].
  split; [reflexivity|]. split; [apply lookup_insert_eq|reflexivity].
Qed.

(** The example record before [create_ec2_instance]. *)
Lemma AWS_info_without_instance_witness :
  ec2_instance (self (fresh sample_aws)) = None
  /\ AWS_info calm_world false (fresh sample_aws)
     = Raise (AttributeError "instance_id") (fresh sample_aws).
Proof.
  split; [reflexivity|].
  apply (AWS_info_without_instance calm_world (fresh sample_aws)). reflexivity.
Defined.

(** X6.  What [info] writes is what it returns: after [info(True)] has
    returned a dictionary, the record is unchanged, the info file holds that
    dictionary, and [info(False)] returns it again without touching the disk;
    for the base class and for [AWS]. *)
Theorem info_file_holds_what_info_returns (W : World) :
  (forall (s s' : St CloudInstance) d,
      info W true s = Ok d s' ->
      self s' = self s
      /\ fs (sys s') !! info_path (self s) = Some (FJson d)
      /\ info W false s' = Ok d s')
  /\ (forall (s s' : St AWS) d,
        AWS_info W true s = Ok d s' ->
        self s' = self s
        /\ fs (sys s') !! info_path (base (self s)) = Some (FJson d)
        /\ AWS_info W false s' = Ok d s'
        /\ keys d
           = [ "name"; "ros_workspace"; "working_dir"; "ssh_key_path";
               "public_ip"; "ec2_region"; "ec2_instance_type"; "disk_size";
               "aws_ami_image"; "ec2_instance_id" ]).
Proof.
  split.
  - intros s s' d H. apply info_Ok in H. destruct H as [-> ->].
    cbn [self sys fs]. split; [reflexivity|].
    split; [apply lookup_insert_eq|reflexivity].
  - intros [a y] s' d H. apply AWS_info_Ok in H. destruct H as (Hi & -> & ->).
    cbn [self sys fs] in *. split; [reflexivity|].
    split; [apply lookup_insert_eq|].
    destruct (ec2_instance a) as [i|] eqn:Hei;
      [|contradiction Hi; reflexivity].
    split; [|reflexivity].
    apply (AWS_info_no_flush W (mkSt a _) i). exact Hei.
Qed.

(** The record of a finished [create], asked for its info. *)
Lemma info_file_holds_what_info_returns_witness :
  let s := fresh (created calm_world 3 sample_aws) in
  AWS_info calm_world true s
  = Ok (aws_info_dict (self s)) (final (AWS_info calm_world true s))
  /\ AWS_info calm_world false (final (AWS_info calm_world true s))
     = Ok (aws_info_dict (self s)) (final (AWS_info calm_world true s)).
Proof.
  intros s.
  assert (AWS_info calm_world true s
          = Ok (aws_info_dict (self s)) (final (AWS_info calm_world true s)))
    as H by (vm_compute; reflexivity).
  split; [exact H|].
  apply (proj2 (info_file_holds_what_info_returns calm_world) s _ _ H).
Defined.



(** ** The security group *)

(** The outcome of [create_security_group], case by case. *)
Lemma create_security_group_cases (W : World) (a : AWS) (t : list action)
    (f : gmap string file) :
  let c := CreateSecurityGroup (ec2_security_group a) "DESCRIPTION" (vpc_id W) in
  let g := AuthorizeIngress (w_group_id W) in
  create_security_group W (mkSt a (mkSys t f))
  = match w_fails W (length t) DescribeVpcs with
    | Some e => Raise e (mkSt a (mkSys (t ++ [DescribeVpcs]) f))
    | None =>
        match w_vpcs W with
        | Some [] => Raise IndexError (mkSt a (mkSys (t ++ [DescribeVpcs]) f))
        | _ =>
            match w_fails W (S (length t)) c with
            | Some _ =>
                Raise (NameError "ClientError")
                  (mkSt a (mkSys ((t ++ [DescribeVpcs]) ++ [c]) f))
            | None =>
                match w_fails W (S (S (length t))) g with
                | Some _ =>
                    Raise (NameError "ClientError")
                      (mkSt a (mkSys (((t ++ [DescribeVpcs]) ++ [c]) ++ [g]) f))
                | None =>
                    Ok tt
                      (mkSt (with_ec2_security_group_ids (Some [w_group_id W]) a)
                         (mkSys
                            ((((t ++ [DescribeVpcs]) ++ [c]) ++ [g])
                             ++ [LogWarn ("security group id is "
                                          +:+ str_list [w_group_id W])])
                            f))
                end
            end
        end
    end.
Proof.
  intros c g. subst c g.
  assert (forall x y : action, length ((t ++ [x]) ++ [y]) = S (S (length t)))
    as L2 by (intros; rewrite !length_app; simpl; lia).
  assert (forall x : action, length (t ++ [x]) = S (length t))
    as L1 by (intros; rewrite length_app; simpl; lia).
  unfold create_security_group, try_except, bind, ext, get_self, vpc_id.
  cbn [self sys trace fs log].
  destruct (w_fails W (length t) DescribeVpcs); [reflexivity|].
  destruct (w_vpcs W) as [[|v vs]|]; [reflexivity| |];
    cbn [ret self sys trace fs log]; rewrite L1;
    (destruct (w_fails W (S (length t)) _);
     [reflexivity|]);
    cbn [self sys trace fs log]; rewrite L2;
    (destruct (w_fails W (S (S (length t))) _); reflexivity).
Qed.

(** X8.  The VPC lookup of [create_security_group]: an account whose list of
    VPCs is empty makes it raise [IndexError] right after the lookup, with
    nothing requested; a response without the [Vpcs] key, or whose first VPC
    has no [VpcId], makes it request the group with the empty string as VPC
    id. *)
Theorem create_security_group_vpc_lookup (W : World) (s : St AWS) :
  w_fails W (length (trace (sys s))) DescribeVpcs = None ->
  (w_vpcs W = Some [] ->
   create_security_group W s = Raise IndexError (log DescribeVpcs s))
  /\ (w_vpcs W = None \/ (exists vs, w_vpcs W = Some (None :: vs)) ->
      exists l,
        trace (sys (final (create_security_group W s)))
        = trace (sys s)
          ++ DescribeVpcs
             :: CreateSecurityGroup (ec2_security_group (self s))
                  "DESCRIPTION" ""
             :: l).
Proof.
  destruct s as [a [t f]]. cbn [self sys trace]. intros Hd.
  rewrite create_security_group_cases, Hd. unfold vpc_id. split.
  - intros ->. reflexivity.
  - intros [Hv|[vs Hv]]; rewrite Hv; cbn [default];
      (destruct (w_fails W (S (length t)) _);
       [exists []|destruct (w_fails W (S (S (length t))) _);
                  [eexists [_]|eexists [_; _]]]);
      cbn [final sys trace]; rewrite <- ?app_assoc; reflexivity.
Qed.

(** An account without a VPC. *)
Lemma create_security_group_vpc_lookup_witness :
  w_fails no_vpc_world (length (trace (sys (fresh sample_aws)))) DescribeVpcs
  = None
  /\ create_security_group no_vpc_world (fresh sample_aws)
     = Raise IndexError (log DescribeVpcs (fresh sample_aws)).
Proof.
  split; [reflexivity|].
  apply (create_security_group_vpc_lookup no_vpc_world (fresh sample_aws));
    reflexivity.
Defined.

(** X9.  [create_security_group] never touches the files, performs a prefix
    of its four actions (so it never logs an error), and either returns with
    [ec2_security_group_ids] set to the one id of the new group or does not
    return and leaves the record as it was: it never goes on with the ids
    unset. *)
Theorem create_security_group_all_or_nothing (W : World) (s : St AWS) :
  let o := create_security_group W s in
  fs (sys (final o)) = fs (sys s)
  /\ (exists l, trace (sys (final o)) = trace (sys s) ++ l
                /\ l `prefix_of` security_group_actions W (self s))
  /\ ((returned o = Some tt
       /\ self (final o)
          = with_ec2_security_group_ids (Some [w_group_id W]) (self s)
       /\ added (trace (sys s)) (trace (sys (final o)))
          = security_group_actions W (self s))
      \/ (exists e, raised o = Some e) /\ self (final o) = self s).
Proof.
  destruct s as [a [t f]]. cbn zeta. cbn [self sys trace fs].
  rewrite create_security_group_cases. unfold security_group_actions.
  destruct (w_fails W (length t) DescribeVpcs) as [e|].
  { cbn [final sys trace fs self raised]. split; [reflexivity|].
    split; [|right; split; [eexists|]; reflexivity].
    exists [DescribeVpcs]. split; [reflexivity|]. eexists; reflexivity. }
  assert (w_vpcs W = Some [] \/ w_vpcs W <> Some []) as [Hv|Hv]
    by (destruct (w_vpcs W) as [[|? ?]|]; [left; reflexivity|right..];
        discriminate).
  { rewrite Hv. cbn [final sys trace fs self raised]. split; [reflexivity|].
    split; [|right; split; [eexists|]; reflexivity].
    exists [DescribeVpcs]. split; [reflexivity|]. eexists; reflexivity. }
  assert (forall X Y : outcome AWS unit,
             match w_vpcs W with Some [] => X | _ => Y end = Y) as ->
    by (intros; destruct (w_vpcs W) as [[|? ?]|];
        [contradiction Hv|..]; reflexivity).
  destruct (w_fails W (S (length t)) _) as [e|].
  { cbn [final sys trace fs self raised]. split; [reflexivity|].
    split; [|right; split; [eexists|]; reflexivity].
    eexists [_; _]. rewrite <- !app_assoc. split; [reflexivity|].
    eexists; reflexivity. }
  destruct (w_fails W (S (S (length t))) _) as [e|].
  { cbn [final sys trace fs self raised]. split; [reflexivity|].
    split; [|right; split; [eexists|]; reflexivity].
    eexists [_; _; _]. rewrite <- !app_assoc. split; [reflexivity|].
    eexists; reflexivity. }
  cbn [final sys trace fs self returned]. split; [reflexivity|].
  rewrite <- !app_assoc. cbn [app]. split.
  - eexists. split; [reflexivity|]. reflexivity.
  - left. split; [reflexivity|]. split; [reflexivity|].
    unfold added. apply drop_app_length.
Qed.

(** X10.  When the group has been created and the ingress rule is refused,
    [create_security_group] raises [NameError] for the name [ClientError],
    which the module does not bind, whatever the error was; the record holds
    no id of the group that now exists in the cloud. *)
Theorem ingress_failure_forgets_the_group (W : World) (s : St AWS) (e0 : exn) :
  w_fails W (length (trace (sys s))) DescribeVpcs = None ->
  w_vpcs W <> Some [] ->
  w_fails W (S (length (trace (sys s))))
    (CreateSecurityGroup (ec2_security_group (self s)) "DESCRIPTION" (vpc_id W))
  = None ->
  w_fails W (S (S (length (trace (sys s))))) (AuthorizeIngress (w_group_id W))
  = Some e0 ->
  create_security_group W s
  = Raise (NameError "ClientError")
      (log (AuthorizeIngress (w_group_id W))
         (log (CreateSecurityGroup (ec2_security_group (self s)) "DESCRIPTION"
                 (vpc_id W))
            (log DescribeVpcs s)))
  /\ ec2_security_group_ids (self (final (create_security_group W s)))
     = ec2_security_group_ids (self s).
Proof.
  destruct s as [a [t f]]. cbn [self sys trace]. intros Hd Hv Hc Hg.
  rewrite create_security_group_cases, Hd, Hc, Hg.
  destruct (w_vpcs W) as [[|? ?]|]; [contradiction Hv; reflexivity|..];
    split; reflexivity.
Qed.

(** The cloud creates the group and refuses the rule. *)
Lemma ingress_failure_forgets_the_group_witness :
  create_security_group ingress_refusing_world (fresh sample_aws)
  = Raise (NameError "ClientError")
      (log (AuthorizeIngress "sg-1")
         (log (CreateSecurityGroup "FOGROS_SECURITY_GROUPAWS59" "DESCRIPTION"
                 "vpc-1")
            (log DescribeVpcs (fresh sample_aws))))
  /\ ec2_security_group_ids
       (self (final (create_security_group ingress_refusing_world
                       (fresh sample_aws))))
     = None.
Proof.
  apply (ingress_failure_forgets_the_group ingress_refusing_world
           (fresh sample_aws)
           (Foreign "ClientError" "InvalidPermission.Malformed"));
    [reflexivity|discriminate|reflexivity|reflexivity].
Defined.

(** ** The instance *)

Lemma bind_after_Raise {T A B} (m : M T A) (k : A -> M T B) s e s1 :
  m s = Raise e s1 -> bind m k s = Raise e s1.
Proof. unfold bind. intros ->. reflexivity. Qed.

Lemma bind_after_Hang {T A B} (m : M T A) (k : A -> M T B) s s1 :
  m s = Hang s1 -> bind m k s = Hang s1.
Proof. unfold bind. intros ->. reflexivity. Qed.

Lemma bind_after_Ok {T A B} (m : M T A) (k : A -> M T B) s a s1 :
  m s = Ok a s1 -> bind m k s = k a s1.
Proof. unfold bind. intros ->. reflexivity. Qed.

(** The run of [create_ec2_instance] up to the loop, case by case. *)
Lemma create_ec2_instance_cases (W : World) (fuel : nat) (a : AWS)
    (t : list action) (f : gmap string file) :
  let c := CreateInstances (aws_ami_image a) (ec2_instance_type a)
             (ec2_key_name a) (ec2_security_group_ids a)
             (ec2_instance_disk_size a) in
  create_ec2_instance W fuel (mkSt a (mkSys t f))
  = match w_fails W (length t) c with
    | Some e => Raise e (mkSt a (mkSys (t ++ [c]) f))
    | None =>
        match w_fails W (S (length t)) WaitUntilRunning with
        | Some e => Raise e (mkSt a (mkSys ((t ++ [c]) ++ [WaitUntilRunning]) f))
        | None =>
            match w_fails W (S (S (length t))) Reload with
            | Some e =>
                Raise e
                  (mkSt a
                     (mkSys (((t ++ [c]) ++ [WaitUntilRunning]) ++ [Reload]) f))
            | None =>
                (instance <- poll_public_ip W fuel (inst W 1) ;;
                 a <- get_self ;;
                 match public_ip (base a) with
                 | None =>
                     raise (TypeError
                              "can only concatenate str (not NoneType) to str")
                 | Some addr =>
                     emit (LogWarn ("EC2 instance is created with ip address: "
                                    +:+ addr))
                 end ;;
                 ret instance)
                  (mkSt (set_addr (inst W 1) a)
                     (mkSys (t ++ [c; WaitUntilRunning; Reload;
                                   Print (w_instance_id W)]) f))
            end
        end
    end.
Proof.
  intros c. subst c.
  assert (forall x y : action, length ((t ++ [x]) ++ [y]) = S (S (length t)))
    as L2 by (intros; rewrite !length_app; simpl; lia).
  assert (forall x : action, length (t ++ [x]) = S (length t))
    as L1 by (intros; rewrite length_app; simpl; lia).
  unfold create_ec2_instance.
  unfold bind at 1. cbn [get_self self].
  unfold bind at 1. unfold ext at 1. cbn [self sys trace fs log].
  destruct (w_fails W (length t) _); [reflexivity|].
  unfold bind at 1. unfold ext at 1. cbn [self sys trace fs log]. rewrite L1.
  destruct (w_fails W (S (length t)) _); [reflexivity|].
  unfold bind at 1. unfold ext at 1. cbn [self sys trace fs log]. rewrite L2.
  destruct (w_fails W (S (S (length t))) _); [reflexivity|].
  unfold bind at 1. unfold modify at 1.
  unfold bind at 1. unfold emit at 1.
  unfold bind at 1. unfold modify at 1.
  unfold log. cbn [self sys trace fs].
  rewrite <- !app_assoc. reflexivity.
Qed.

(** One turn of the loop. *)
Lemma poll_public_ip_step (W : World) (fuel r : nat) (a0 : AWS)
    (t : list action) (f : gmap string file) :
  truthy (w_public_ip_address W r) = false ->
  poll_public_ip W (S fuel) (inst W r)
    (mkSt (set_addr (inst W r) a0) (mkSys t f))
  = match w_fails W (length t) Reload with
    | Some e => Raise e (mkSt (set_addr (inst W r) a0) (mkSys (t ++ [Reload]) f))
    | None =>
        poll_public_ip W fuel (inst W (S r))
          (mkSt (set_addr (inst W (S r)) a0) (mkSys (t ++ [Reload]) f))
    end.
Proof.
  intros Ht.
  cbn [poll_public_ip self set_addr with_base base with_public_ip
         public_ip inst public_ip_address].
  rewrite Ht. unfold bind at 1. unfold ext at 1. cbn [self sys trace fs log].
  destruct (w_fails W (length t) Reload); [reflexivity|].
  unfold bind at 1. unfold modify at 1. unfold bind at 1. unfold modify at 1.
  cbn [self sys trace fs]. reflexivity.
Qed.

(** A poll that does not return leaves a handle whose address is still
    false. *)
Lemma poll_public_ip_stuck (W : World) (fuel : nat) :
  forall (r : nat) (a0 : AWS) (y : Sys),
    let o := poll_public_ip W fuel (inst W r) (mkSt (set_addr (inst W r) a0) y) in
    returned o = None ->
    fs (sys (final o)) = fs y
    /\ exists k : nat,
        self (final o) = set_addr (inst W (r + k)) a0
        /\ truthy (w_public_ip_address W (r + k)) = false.
Proof.
  induction fuel as [|fuel IH]; intros r a0 [t f]; cbn zeta.
  - cbn [poll_public_ip self set_addr with_base base with_public_ip
           public_ip inst public_ip_address].
    destruct (truthy (w_public_ip_address W r)) eqn:Ht; [discriminate|].
    intros _. cbn [final self sys fs]. split; [reflexivity|].
    exists 0%nat. rewrite Nat.add_0_r. split; [reflexivity|exact Ht].
  - destruct (truthy (w_public_ip_address W r)) eqn:Ht.
    + cbn [poll_public_ip self set_addr with_base base with_public_ip
             public_ip inst public_ip_address].
      rewrite Ht. discriminate.
    + rewrite (poll_public_ip_step W fuel r a0 t f Ht).
      destruct (w_fails W (length t) Reload).
      * intros _. cbn [final self sys fs]. split; [reflexivity|].
        exists 0%nat. rewrite Nat.add_0_r. split; [reflexivity|exact Ht].
      * intros H. apply (IH (S r) a0) in H. cbn [fs] in H.
        destruct H as [Hf (k & Hs & Hk)]. split; [exact Hf|].
        exists (S k). replace (r + S k)%nat with (S r + k)%nat by lia.
        split; assumption.
Qed.

(** X11.  When the wait for the running state fails, [create_ec2_instance]
    raises the waiter's error with the record as it was: the instance has
    been requested, and neither its handle nor an address is stored. *)
Theorem failed_wait_leaves_no_handle (W : World) (fuel : nat) (s : St AWS)
    (e : exn) :
  let c := CreateInstances (aws_ami_image (self s)) (ec2_instance_type (self s))
             (ec2_key_name (self s)) (ec2_security_group_ids (self s))
             (ec2_instance_disk_size (self s)) in
  w_fails W (length (trace (sys s))) c = None ->
  w_fails W (S (length (trace (sys s)))) WaitUntilRunning = Some e ->
  create_ec2_instance W fuel s = Raise e (log WaitUntilRunning (log c s))
  /\ ec2_instance (self (final (create_ec2_instance W fuel s)))
     = ec2_instance (self s)
  /\ public_ip (base (self (final (create_ec2_instance W fuel s))))
     = public_ip (base (self s)).
Proof.
  destruct s as [a [t f]]. cbn zeta. cbn [self sys trace]. intros Hc Hw.
  rewrite create_ec2_instance_cases. cbn zeta. rewrite Hc, Hw.
  repeat split.
Qed.

(** The instance that never reaches the running state. *)
Lemma failed_wait_leaves_no_handle_witness :
  raised (create_ec2_instance impatient_world 5 (fresh sample_aws))
  = Some (Foreign "WaiterError" "Max attempts exceeded")
  /\ ec2_instance
       (self (final (create_ec2_instance impatient_world 5 (fresh sample_aws))))
     = None.
Proof.
  destruct (failed_wait_leaves_no_handle impatient_world 5 (fresh sample_aws)
              (Foreign "WaiterError" "Max attempts exceeded"))
    as (H & Hi & _); [reflexivity|reflexivity|].
  split; [rewrite H; reflexivity|exact Hi].
Defined.



(** ** The lock *)

(** X13.  Every operation releases the lock it takes: after any sequence of
    operations the lock is as it was before.  A lock that is held (nothing
    in the class holds it across calls) blocks the gate: [set_ready_state]
    and [get_ready_state] wait without changing anything, and [create] does
    not return. *)
Theorem lock_is_released_or_blocks (W : World) (s : St AWS) :
  (forall ms : list method,
      ready_lock (base (self (lifetime W ms s))) = ready_lock (base (self s)))
  /\ (ready_lock (base (self s)) = true ->
      (forall b, on_base (set_ready_state b) s = Hang s)
      /\ on_base get_ready_state s = Hang s
      /\ forall fuel, returned (AWS_create W fuel s) = None).
Proof.
  split.
  - intros ms. apply (lifetime_kept W ms s).
  - intros Hl. split; [|split].
    + intros b. destruct s as [[[cb sc pi rw sk un wd lk rs] rg ty dk ami sg kn ei k ids] y].
      cbn [self base ready_lock] in Hl. subst lk. reflexivity.
    + destruct s as [[[cb sc pi rw sk un wd lk rs] rg ty dk ami sg kn ei k ids] y].
      cbn [self base ready_lock] in Hl. subst lk. reflexivity.
    + intros fuel.
      destruct (AWS_create W fuel s) as [u s'|e s'|s'] eqn:H; [|reflexivity..].
      apply AWS_create_Ok in H.
      destruct H as (N & path & _ & _ & Hfree & _). congruence.
Qed.

(** A record whose lock is held by someone else. *)
Lemma lock_is_released_or_blocks_witness :
  let s := fresh (with_base held_record sample_aws) in
  ready_lock (base (self s)) = true
  /\ on_base get_ready_state s = Hang s
  /\ returned (AWS_create calm_world 5 s) = None.
Proof.
  intros s.
  destruct (proj2 (lock_is_released_or_blocks calm_world s) eq_refl)
    as (_ & Hg & Hc).
  split; [reflexivity|]. split; [exact Hg|exact (Hc 5%nat)].
Defined.

(** ** The files of a run *)

Lemma append_cancel_l (x y z : string) : x +:+ y = x +:+ z -> y = z.
Proof.
  induction x as [|c x IH]; cbn; [tauto|]. intros H. injection H as H.
  apply IH, H.
Qed.

Lemma AWS_init_Ok (W : World) (fuel : nat) (rg ty : string) (dk : Z)
    (ami ros_workspace working_dir_base : string) (s s' : St unit) (a : AWS) :
  AWS_init W fuel rg ty dk ami ros_workspace working_dir_base s = Ok a s' ->
  exists a0 s0,
    AWS_fields W rg ty dk ami ros_workspace working_dir_base s = Ok a0 s0
    /\ AWS_create W fuel (mkSt a0 (sys s0)) = Ok tt (mkSt a (sys s')).
Proof.
  unfold AWS_init. intros H. apply bind_Ok in H.
  destruct H as (a0 & s0 & Hf & H). exists a0, s0. split; [exact Hf|].
  unfold construct in H.
  destruct (AWS_create W fuel (mkSt a0 (sys s0))) as [[] [a1 y1]|e s1|s1];
    [|discriminate..].
  injection H as <- <-. reflexivity.
Qed.



(** X15.  When the constructor of [AWS] returns a record, the private key
    is on disk at the record's [ssh_key_path], a file different from the
    info file, which holds the record's dictionary; the record's [ssh_key]
    is that same key. *)
Theorem AWS_init_leaves_key_and_info (W : World) (fuel : nat) (rg ty : string)
    (dk : Z) (ami ros_workspace working_dir_base : string) (s s' : St unit)
    (a : AWS) :
  AWS_init W fuel rg ty dk ami ros_workspace working_dir_base s = Ok a s' ->
  exists path,
    ssh_key_path (base a) = Some path
    /\ path <> info_path (base a)
    /\ ssh_key a = Some (w_key_material W)
    /\ fs (sys s') !! path = Some (FText (w_key_material W))
    /\ fs (sys s') !! info_path (base a) = Some (FJson (aws_info_dict a)).
Proof.
  intros H. apply AWS_init_Ok in H. destruct H as (a0 & s0 & Hf & Hc).
  apply AWS_fields_Ok in Hf. destruct Hf as (n1 & n2 & _ & _ & Ha0).
  cbn zeta in Ha0.
  apply AWS_create_Ok in Hc.
  destruct Hc as (N & path & _ & Hp & _ & _ & _ & Hs & _ & Hfs).
  cbn [self sys] in *. subst a0. cbn [base ssh_key_path] in Hp.
  injection Hp as <-.
  match type of Hfs with
  | _ = <[_:=_]> (<[_:=_]> (<[?p:=_]> _)) =>
      assert (p <> info_path (base a)) as Hne
  end.
  { rewrite Hs. unfold info_path.
    cbn [created base with_base with_ready_state with_scp with_public_ip
           with_ec2_instance with_ssh_key with_ec2_security_group_ids
           working_dir].
    intros E.
    apply (append_cancel_l (working_dir_base +:+ "/" +:+ str n1 +:+ "/")) in E.
    discriminate E. }
  eexists. split; [rewrite Hs; reflexivity|]. split; [exact Hne|].
  split; [rewrite Hs; reflexivity|]. rewrite Hfs. split.
  - rewrite !lookup_insert_ne by congruence. apply lookup_insert_eq.
  - apply lookup_insert_eq.
Qed.

(** The files after the constructor has run in the example world. *)
Lemma AWS_init_leaves_key_and_info_witness :
  let init :=
    AWS_init calm_world 5 default_region default_ec2_instance_type
      default_disk_size default_ami_image "/tmp/ws" "/tmp/fogros/" boot in
  let a := created calm_world 3 sample_aws in
  init = Ok a (final init)
  /\ exists path,
       ssh_key_path (base a) = Some path
       /\ path <> info_path (base a)
       /\ ssh_key a = Some (w_key_material calm_world)
       /\ fs (sys (final init)) !! path
          = Some (FText (w_key_material calm_world))
       /\ fs (sys (final init)) !! info_path (base a)
          = Some (FJson (aws_info_dict a)).
Proof.
  intros init a.
  assert (init = Ok a (final init)) as H by (vm_compute; reflexivity).
  split; [exact H|].
  exact (AWS_init_leaves_key_and_info calm_world 5 default_region
           default_ec2_instance_type default_disk_size default_ami_image
           "/tmp/ws" "/tmp/fogros/" boot (final init) a H).
Defined.

(** ** After [create] *)

Section Deploy.

Context (W : World).
Hypothesis reliable : deploy_reliable W.

Lemma ext_deploy {T} (a : action) (s : St T) :
  is_deploy_call a = true -> ext W a s = Ok tt (log a s).
Proof. intros Ha. unfold ext. rewrite (reliable _ a Ha). reflexivity. Qed.

Lemma push_and_setup_vpn_returns (c : CloudInstance) (y : Sys) :
  scp c <> None ->
  push_and_setup_vpn W (mkSt c y)
  = Ok tt (mkSt c (mkSys (trace y ++ overlay_actions c) (fs y))).
Proof.
  intros Hs. unfold push_and_setup_vpn. unfold bind at 1. cbn [get_self self].
  unfold bind at 1. rewrite send_file_session by exact Hs.
  rewrite ext_deploy by reflexivity.
  rewrite execute_cmd_session by exact Hs.
  rewrite ext_deploy by reflexivity.
  unfold log, overlay_actions. cbn [self sys trace fs].
  rewrite <- app_assoc. reflexivity.
Qed.

Lemma configure_DDS_returns (c : CloudInstance) (y : Sys) :
  scp c <> None ->
  configure_DDS W (mkSt c y)
  = Ok tt (mkSt (with_cyclone_builder (Some ["10.0.0.1"]) c)
             (mkSys (trace y ++ middleware_actions) (fs y))).
Proof.
  intros Hs. unfold configure_DDS. unfold bind at 1. unfold modify at 1.
  cbn [self sys]. unfold bind at 1. rewrite ext_deploy by reflexivity.
  rewrite send_file_session by exact Hs.
  rewrite ext_deploy by reflexivity.
  unfold log, middleware_actions. cbn [self sys trace fs].
  rewrite <- app_assoc. reflexivity.
Qed.

Lemma launch_cloud_node_returns (c : CloudInstance) (y : Sys) :
  scp c <> None -> cyclone_builder c <> None ->
  launch_cloud_node W (mkSt c y)
  = Ok tt (mkSt c (mkSys (trace y ++ launch_actions W) (fs y))).
Proof.
  intros Hs Hb. unfold launch_cloud_node. unfold bind at 1. cbn [get_self self].
  destruct (cyclone_builder c); [|contradiction Hb; reflexivity].
  unfold bind at 1. unfold emit at 1.
  rewrite execute_cmd_session by exact Hs.
  rewrite ext_deploy by reflexivity.
  unfold log, launch_actions, launch_command. cbn [self sys trace fs].
  rewrite <- app_assoc. reflexivity.
Qed.

Lemma on_base_returns {A} (m : M CloudInstance A) (a : AWS) (y : Sys) r c' y' :
  m (mkSt (base a) y) = Ok r (mkSt c' y') ->
  on_base m (mkSt a y) = Ok r (mkSt (with_base c' a) y').
Proof. unfold on_base, lift. cbn [self sys]. intros ->. reflexivity. Qed.

Lemma deploy_steps_returns (a : AWS) (y : Sys) :
  scp (base a) <> None ->
  deploy_steps W (mkSt a y)
  = Ok tt
      (mkSt (with_base (with_cyclone_builder (Some ["10.0.0.1"]) (base a)) a)
         (mkSys (trace y ++ overlay_actions (base a) ++ middleware_actions
                 ++ launch_actions W) (fs y))).
Proof.
  intros Hs. unfold deploy_steps.
  unfold bind at 1.
  rewrite (on_base_returns (push_and_setup_vpn W) a y tt _ _
             (push_and_setup_vpn_returns (base a) y Hs)).
  unfold bind at 1.
  rewrite (on_base_returns (configure_DDS W) (with_base (base a) a) _ tt _ _
             (configure_DDS_returns (base a) _ Hs)).
  rewrite (on_base_returns (launch_cloud_node W)
             (with_base (with_cyclone_builder (Some ["10.0.0.1"]) (base a))
                (with_base (base a) a)) _ tt _ _
             (launch_cloud_node_returns
                (with_cyclone_builder (Some ["10.0.0.1"]) (base a)) _
                Hs ltac:(discriminate))).
  destruct a as [c rg ty dk ami sg kn ei k ids].
  cbn [base with_base trace fs region ec2_instance_type ec2_instance_disk_size
         aws_ami_image ec2_security_group ec2_key_name ec2_instance ssh_key
         ec2_security_group_ids].
  rewrite <- !app_assoc. reflexivity.
Qed.

End Deploy.



(** X17.  A record of the base class, as its constructor returns it, is not
    ready, has a free lock, no session, no address and no key path; its
    working directory is the base, a slash, its name and a slash, where the
    name is the decimal of a number between 10 and 1000, and making that
    directory is the only thing done besides the draw.  On such a record
    [create] raises [NotImplementedError] and the dependency installation
    raises [AttributeError], both without any effect. *)
Theorem CloudInstance_init_record (W : World) (ros_workspace working_dir_base : string)
    (s s' : St unit) (c : CloudInstance) :
  CloudInstance_init W ros_workspace working_dir_base s = Ok c s' ->
  let s0 := mkSt c (sys s') in
  (exists n : Z,
      10 <= n <= 1000 /\ unique_name c = str n
      /\ working_dir c = working_dir_base +:+ "/" +:+ str n +:+ "/"
      /\ added (trace (sys s)) (trace (sys s'))
         = [Randint 10 1000; Makedirs (working_dir c)])
  /\ get_ready_state s0 = Ok false s0
  /\ info W false s0
     = Ok [ ("name", JStr (unique_name c));
            ("ros_workspace", JStr ros_workspace);
            ("working_dir", JStr (working_dir c));
            ("ssh_key_path", JNull); ("public_ip", JNull) ] s0
  /\ CloudInstance_create s0
     = Raise (NotImplementedError "Cloud SuperClass not implemented") s0
  /\ install_cloud_dependencies W s0 = Raise (AttributeError "execute_cmd") s0.
Proof.
  intros H. apply CloudInstance_init_Ok in H. destruct H as (n & Hn & -> & ->).
  cbn zeta. split.
  - exists n. split; [exact Hn|]. split; [reflexivity|]. split; [reflexivity|].
    cbn [unique_name working_dir]. unfold log. cbn [self sys trace fs].
    rewrite <- app_assoc. unfold added. apply drop_app_length.
  - repeat split.
Qed.

(** The base record of the example world. *)
Lemma CloudInstance_init_record_witness :
  CloudInstance_init calm_world "/tmp/ws" "/tmp/fogros/" boot
  = Ok sample_record
      (final (CloudInstance_init calm_world "/tmp/ws" "/tmp/fogros/" boot))
  /\ CloudInstance_create
       (mkSt sample_record
          (sys (final (CloudInstance_init calm_world "/tmp/ws" "/tmp/fogros/"
                         boot))))
     = Raise (NotImplementedError "Cloud SuperClass not implemented")
         (mkSt sample_record
            (sys (final (CloudInstance_init calm_world "/tmp/ws" "/tmp/fogros/"
                           boot)))).
Proof.
  assert (CloudInstance_init calm_world "/tmp/ws" "/tmp/fogros/" boot
          = Ok sample_record
              (final (CloudInstance_init calm_world "/tmp/ws" "/tmp/fogros/"
                        boot))) as H by (vm_compute; reflexivity).
  split; [exact H|].
  exact (proj1 (proj2 (proj2 (proj2
           (CloudInstance_init_record calm_world "/tmp/ws" "/tmp/fogros/" boot
              _ sample_record H))))).
Defined.

(** X18.  The record that [create] returns is consistent: [get_ip] returns
    an address that is not empty, which is also the address cached in the
    instance handle and the one the session was opened with; the session
    uses the key path that [get_ssh_key_path] returns; [get_name] still
    returns the name the record had; the security group ids are the one id
    of the new group; [get_ssh_key] returns the key material; and
    [get_ready_state] returns true. *)
Theorem created_record_is_consistent (W : World) (fuel : nat) (s s' : St AWS) u :
  AWS_create W fuel s = Ok u s' ->
  exists addr path i,
    addr <> ""
    /\ on_base get_ip s' = Ok (Some addr) s'
    /\ on_base get_ssh_key_path s' = Ok (Some path) s'
    /\ on_base get_name s' = Ok (unique_name (base (self s))) s'
    /\ scp (base (self s')) = Some (mkSCP (Some addr) (Some path))
    /\ ec2_instance (self s') = Some i
    /\ public_ip_address i = Some addr
    /\ instance_id i = w_instance_id W
    /\ ec2_security_group_ids (self s') = Some [w_group_id W]
    /\ get_ssh_key s' = Ok (Some (w_key_material W)) s'
    /\ on_base get_ready_state s' = Ok true s'.
Proof.
  intros H. apply AWS_create_Ok in H.
  destruct H as (N & path & _ & Hp & Hl & Ht & _ & Hs & _ & _).
  destruct s' as [a' y'].
  destruct s as [[[cb sc pi rw sk un wd lk rs] rg ty dk ami sg kn ei k ids] y].
  cbn [self sys base ssh_key_path ready_lock] in *. subst a' sk lk.
  destruct (w_public_ip_address W N) as [addr|] eqn:Ha; [|discriminate Ht].
  exists addr, path, (inst W N). split.
  - intros ->. discriminate Ht.
  - unfold created, inst. rewrite Ha. repeat split.
Qed.

(** The record of the example run. *)
Lemma created_record_is_consistent_witness :
  let s' := final (AWS_create calm_world 5 (fresh sample_aws)) in
  exists addr path i,
    addr <> ""
    /\ on_base get_ip s' = Ok (Some addr) s'
    /\ on_base get_ssh_key_path s' = Ok (Some path) s'
    /\ on_base get_name s' = Ok (unique_name (base (self (fresh sample_aws)))) s'
    /\ scp (base (self s')) = Some (mkSCP (Some addr) (Some path))
    /\ ec2_instance (self s') = Some i
    /\ public_ip_address i = Some addr
    /\ instance_id i = w_instance_id calm_world
    /\ ec2_security_group_ids (self s') = Some [w_group_id calm_world]
    /\ get_ssh_key s' = Ok (Some (w_key_material calm_world)) s'
    /\ on_base get_ready_state s' = Ok true s'.
Proof.
  intros s'.
  assert (AWS_create calm_world 5 (fresh sample_aws) = Ok tt s') as H
    by (vm_compute; reflexivity).
  exact (created_record_is_consistent calm_world 5 (fresh sample_aws) s' tt H).
Defined.

(** ** The gate and the outcome of [create] *)

Lemma unreturned_bind {A B} (m : M AWS A) (k : A -> M AWS B) :
  preserves quietA m ->
  (forall a s1, returned (k a s1) = None -> quietA s1 (final (k a s1))) ->
  forall s, returned (bind m k s) = None -> quietA s (final (bind m k s)).
Proof.
  intros Hm Hk s. specialize (Hm s). unfold bind.
  destruct (m s) as [a s1|e s1|s1]; cbn [final] in *.
  - intros H. eapply quietA_trans; [exact Hm|apply Hk, H].
  - intros _. exact Hm.
  - intros _. exact Hm.
Qed.

Lemma unreturned_set_ready (s : St AWS) :
  returned ((on_base (set_ready_state true) ;; ret tt) s) = None ->
  quietA s (final ((on_base (set_ready_state true) ;; ret tt) s)).
Proof.
  destruct s as [[[cb sc pi rw sk un wd lk rs] rg ty dk ami sg kn ei k ids] y].
  destruct lk; cbn.
  - intros _. apply quietA_refl.
  - discriminate.
Qed.

Lemma unreturned_AWS_create (W : World) (fuel : nat) (s : St AWS) :
  returned (AWS_create W fuel s) = None ->
  quietA s (final (AWS_create W fuel s)).
Proof.
  revert s. unfold AWS_create.
  apply unreturned_bind; [apply quietA_emit; reflexivity|intros _].
  apply unreturned_bind; [apply quietA_create_security_group|intros _].
  apply unreturned_bind; [apply quietA_generate_key_pair|intros _].
  apply unreturned_bind; [apply quietA_create_ec2_instance|intros _].
  apply unreturned_bind; [apply quietA_on_base, quiet_connect|intros _].
  apply unreturned_bind;
    [apply quietA_on_base, quiet_install_cloud_dependencies|intros _].
  apply unreturned_bind; [apply quietA_on_base, quiet_push_ros_workspace|intros _].
  apply unreturned_bind; [apply quietA_AWS_info|intros _].
  apply unreturned_set_ready.
Qed.

(** X19.  The gate tells whether [create] has completed: started on a record
    that is not ready, a run of [create] that raises or does not end leaves
    the record not ready and has not written the gate, whichever step
    stopped it; a run that returns leaves it ready. *)
Theorem gate_set_only_by_completed_create (W : World) (fuel : nat) (s : St AWS) :
  ready_state (base (self s)) = false ->
  let o := AWS_create W fuel s in
  (returned o = None ->
   ready_state (base (self (final o))) = false
   /\ gate_writes (added (trace (sys s)) (trace (sys (final o)))) = [])
  /\ (returned o <> None -> ready_state (base (self (final o))) = true).
Proof.
  intros Hr o. subst o. split.
  - intros H. apply unreturned_AWS_create in H.
    destruct H as [(_ & Hg & _ & l & Ht & Hl) _]. cbn [view self sys] in *.
    split; [congruence|]. rewrite Ht. unfold added. rewrite drop_app_length.
    apply no_gate_write_gate_writes, Hl.
  - destruct (AWS_create W fuel s) as [u s'|e s'|s'] eqn:H;
      [intros _|intros C; contradiction C; reflexivity..].
    apply AWS_create_Ok in H.
    destruct H as (N & path & _ & _ & _ & _ & _ & Hs & _).
    cbn [final]. rewrite Hs. reflexivity.
Qed.

(** A run stopped by the wait for the running state. *)
Lemma gate_set_only_by_completed_create_witness :
  let o := AWS_create impatient_world 5 (fresh sample_aws) in
  returned o = None
  /\ ready_state (base (self (final o))) = false
  /\ gate_writes (added (trace (sys (fresh sample_aws))) (trace (sys (final o))))
     = [].
Proof.
  intros o.
  assert (returned o = None) as H by (vm_compute; reflexivity).
  split; [exact H|].
  exact (proj1 (gate_set_only_by_completed_create impatient_world 5
                  (fresh sample_aws) eq_refl) H).
Defined.
